(** * Token authentication core of the contact-management service

    A shallow embedding of [src/tokens_access.py] (access and refresh
    tokens, bearer authentication), [utils/token.py] (e-mail verification
    tokens) and the [User] row of [database/models.py], with the properties
    the specification states about them.

    Conventions of the embedding.
    - A Python [dict] with string keys (the JWT payload) is a
      [gmap string json].
    - A Python call that may raise returns a [result]: [Returns v] or
      [Raises e]; [try ... except JWTError] is [try_except_JWTError].
    - [datetime.utcnow()] is an explicit argument [utcnow : Z], the clock
      reading in whole seconds since the epoch: both JWT packages turn a
      [datetime] into [timegm(dt.utctimetuple())], which drops the
      microseconds, so nothing in the modelled code observes more.
    - The SQLAlchemy session is the list of [User] rows it reads and
      commits; a function that commits returns the new list.
    - The JWT package ([jose.jwt] in tokens_access.py, PyJWT in
      utils/token.py) is not part of the repository: it is the interface
      [JWT] below, and every theorem holds for every implementation of it. *)

From Stdlib Require Import ZArith QArith String Ascii List Bool Lia.
From stdpp Require Import base option list gmap strings countable.

Local Open Scope Z_scope.
Local Open Scope string_scope.

(** ** Python values and exceptions *)

(** The JSON values a payload holds in this code base: [None], integers
    (the [exp] timestamp) and strings (the [sub] e-mail). *)
Inductive json : Type :=
| JNull
| JInt (n : Z)
| JStr (s : string).

#[global] Instance json_eq_dec : EqDecision json.
Proof. solve_decision. Defined.

Definition json_to_sum (v : json) : unit + (Z + string) :=
  match v with
  | JNull => inl tt
  | JInt n => inr (inl n)
  | JStr s => inr (inr s)
  end.

Definition json_of_sum (x : unit + (Z + string)) : json :=
  match x with
  | inl _ => JNull
  | inr (inl n) => JInt n
  | inr (inr s) => JStr s
  end.

#[global] Instance json_countable : Countable json.
Proof.
  refine (inj_countable' json_to_sum json_of_sum _).
  intros []; reflexivity.
Defined.

(** A JWT payload ([to_encode], [payload], [data] in the source). *)
Abbreviation claims := (gmap string json).

(** The errors of the JWT package. Every one of them is a subclass of
    [jose.JWTError] (of [jwt.PyJWTError] in PyJWT), which is what the
    source catches. *)
Inductive jwt_error : Type :=
| InvalidTokenError        (* bad segments, bad signature, bad payload *)
| ExpiredSignatureError    (* the exp claim is in the past *)
| JWTClaimsError.          (* another registered claim is refused *)

Inductive exn : Type :=
| KeyError (key : string)
| AttributeError (attr : string)
| JWTError (e : jwt_error)
| HTTPException (status_code : Z) (detail : string)
                (headers : list (string * string)).

Inductive result (A : Type) : Type :=
| Returns (a : A)
| Raises (e : exn).

Arguments Returns {A} a.
Arguments Raises {A} e.

(** Sequencing of calls that may raise: [x ← r; k] runs [k] on the value
    of [r], and an exception of [r] propagates. *)
#[global] Instance result_bind : MBind result :=
  fun A B (k : A -> result B) (r : result A) =>
    match r with
    | Returns a => k a
    | Raises e => Raises e
    end.

(** [try: body  except JWTError: handler]: only errors of the JWT package
    reach the handler, any other exception propagates. *)
Definition try_except_JWTError {A : Type} (body handler : result A) : result A :=
  match body with
  | Raises (JWTError _) => handler
  | r => r
  end.

(** [d[key]]: a missing key raises [KeyError]. *)
Definition getitem (d : claims) (key : string) : result json :=
  match d !! key with
  | Some v => Returns v
  | None => Raises (KeyError key)
  end.

(** [d.get(key)]: a missing key gives [None], as does a stored [None]. *)
Definition dict_get (d : claims) (key : string) : option json :=
  match d !! key with
  | Some JNull => None
  | o => o
  end.

(** [s.removeprefix(prefix)] *)
Fixpoint strip_prefix (prefix s : string) : option string :=
  match prefix with
  | EmptyString => Some s
  | String a prefix' =>
      match s with
      | String b s' => if Ascii.eqb a b then strip_prefix prefix' s' else None
      | EmptyString => None
      end
  end.

Definition removeprefix (s prefix : string) : string :=
  default s (strip_prefix prefix s).

(** A finite Python [float] is a rational. [bool(x)] is false exactly at
    zero, [int(x)] truncates towards zero. ([nan] and the infinities, on
    which [int] raises, are not values of this type.) *)
Definition float_truthy (x : Q) : bool := negb (Z.eqb (Qnum x) 0).

Definition py_int (x : Q) : Z := Z.quot (Qnum x) (Z.pos (Qden x)).

(** [if expires_delta:] for an [Optional[float]] *)
Definition truthy (expires_delta : option Q) : bool :=
  match expires_delta with
  | Some x => float_truthy x
  | None => false
  end.

(** [timedelta(minutes=m)] and [timedelta(seconds=s)], in seconds, and
    [timedelta.total_seconds()], the float the callers pass on. *)
Definition timedelta_minutes (m : Z) : Z := m * 60.
Definition timedelta_seconds (s : Z) : Z := s.
Definition total_seconds (td : Z) : Q := inject_Z td.

(** ** database/models.py: the [users] table *)

Record User : Type := mkUser {
  id : Z;
  email : string;
  hashed_password : string;
  refresh_token : option string;
  is_verified : bool;
  avatar_url : option string
}.

(** [User.email == v] as a filter: a row matches a string equal to its
    e-mail; [None] and integers match no row. *)
Definition email_is (v : json) (u : User) : bool :=
  match v with
  | JStr s => String.eqb (email u) s
  | _ => false
  end.

(** [db.query(User).filter(p).first()] *)
Definition query_first (p : User -> bool) (db : list User) : option User :=
  List.find p db.

(** [user.refresh_token = token] *)
Definition set_refresh_token (token : string) (u : User) : User :=
  {| id := id u;
     email := email u;
     hashed_password := hashed_password u;
     refresh_token := Some token;
     is_verified := is_verified u;
     avatar_url := avatar_url u |}.

(** [user.refresh_token = token; db.commit()], where [user] is the row
    [query_first p] returned: that row is rewritten, the rest is kept. *)
Fixpoint commit_refresh_token (p : User -> bool) (token : string)
    (db : list User) : list User :=
  match db with
  | [] => []
  | u :: rest =>
      if p u then set_refresh_token token u :: rest
      else u :: commit_refresh_token p token rest
  end.

(** [database/users.py]: [get_user_by_email(db, email)]. The argument is
    whatever the caller read from a payload. *)
Definition get_user_by_email (db : list User) (email : json) : option User :=
  query_first (email_is email) db.

(** ** The JWT package *)

(** The claims the tokens of this code base carry: a string [sub], an
    integer [exp], nothing else. On such a claims set the only check of
    [jwt.decode] that can fail is the one on [exp]. *)
Definition plain_claims (c : claims) : Prop :=
  dom c ⊆ ({["sub"; "exp"]} : gset string)
  /\ (forall v, c !! "sub" = Some v -> exists s, v = JStr s)
  /\ (forall v, c !! "exp" = Some v -> exists e, v = JInt e).

Definition check_exp (expired : Z -> Z -> bool) (c : claims) (now : Z)
  : option jwt_error :=
  match c !! "exp" with
  | Some (JInt e) => if expired e now then Some ExpiredSignatureError else None
  | _ => None
  end.

(** What the source uses of the package, and what it relies on.
    - [jws_sign c key alg] is the compact token [jwt.encode] builds for the
      payload [c]: header, payload and signature segments.
    - [jws_verify token key algs] is the first half of [jwt.decode]: it
      splits the token, checks the signature under [key] with one of
      [algs], and parses the payload; [None] when any of that fails. It
      does not look at the claims.
    - [validate_claims c now] is the second half: the checks of the
      registered claims at clock reading [now], [None] when all pass.
    - [expired e now] is the comparison behind the [exp] check. The
      packages differ on the second [now = e] itself (python-jose refuses
      [e < now], PyJWT 2 refuses [e <= now]), so only the two sides of the
      boundary are fixed here.

    The laws are the documented behaviour of both packages:
    - [jws_verify_sign]: a token verifies under the key and algorithm it
      was signed with, and its payload is the one signed;
    - [jws_sign_header]: a compact token starts with the base64url text of
      a JSON object, the header;
    - [expired_past], [expired_future]: a token is expired after its
      [exp] and not before it (no leeway is configured);
    - [validate_expired]: whatever else a payload holds, an expired [exp]
      makes the validation fail;
    - [validate_plain]: on a payload of subject and expiry only, the
      validation is the [exp] check and nothing more.

    [validate_claims] answers with an error of the package or passes. A
    signed payload whose registered claims the package does not handle
    (python-jose on an [exp] that is [null] raises [TypeError], which is
    no [JWTError]) is outside this interface; nothing in the code base
    builds one. The statements below that enumerate failures are made on
    the tokens that do not verify and on those whose payload is
    [plain_claims]. *)
Class JWT : Type := {
  jws_sign : claims -> string -> string -> string;
  jws_verify : string -> string -> list string -> option claims;
  validate_claims : claims -> Z -> option jwt_error;
  expired : Z -> Z -> bool;
  jws_verify_sign : forall c key alg algs,
    alg ∈ algs -> jws_verify (jws_sign c key alg) key algs = Some c;
  jws_sign_header : forall c key alg,
    exists rest, jws_sign c key alg = "eyJ" ++ rest;
  expired_past : forall e now, e < now -> expired e now = true;
  expired_future : forall e now, now < e -> expired e now = false;
  validate_expired : forall c e now,
    c !! "exp" = Some (JInt e) -> expired e now = true ->
    validate_claims c now <> None;
  validate_plain : forall c now,
    plain_claims c -> validate_claims c now = check_exp expired c now
}.

(** The boundary of PyJWT 2, the package [utils/token.py] imports:
    [_validate_exp] refuses with [if exp <= (now - leeway)], and no leeway
    is configured, so a token is expired from the second [exp] itself on.
    (python-jose, the package of [src/tokens_access.py], refuses with
    [exp < now] and still accepts the token during that second.) *)
Definition pyjwt_boundary (lib : JWT) : Prop :=
  forall e now, expired e now = Z.leb e now.

Module jwt.
Section jwt.
Context {lib : JWT}.

(** [jwt.encode(claims, key, algorithm=algorithm)]. The source passes
    [exp] as a [datetime]; the package stores its epoch seconds, which is
    what the model's callers pass already. *)
Definition encode (c : claims) (key algorithm : string) : string :=
  jws_sign c key algorithm.

(** [jwt.decode(token, key, algorithms=algorithms)] with the default
    options, at clock reading [now]: signature and payload first, then the
    registered claims, [exp] among them. *)
Definition decode (token key : string) (algorithms : list string) (now : Z)
  : result claims :=
  match jws_verify token key algorithms with
  | None => Raises (JWTError InvalidTokenError)
  | Some c =>
      match validate_claims c now with
      | Some e => Raises (JWTError e)
      | None => Returns c
      end
  end.

End jwt.
End jwt.

(** ** src/tokens_access.py *)

Module tokens_access.
Section tokens_access.
Context {lib : JWT}.

(** [SECRET_KEY = os.getenv("SECRET_KEY")]: process configuration, read
    once when the module is loaded. *)
Variable SECRET_KEY : string.

Definition ALGORITHM : string := "HS256".
Definition ACCESS_TOKEN_EXPIRE_MINUTES : Z := 30.
Definition REFRESH_TOKEN_EXPIRE_MINUTES : Z := 1440.

(** [if expires_delta:] holds for a float that is not zero; [None] and
    [0.0] take the [else] branch. *)
Definition create_access_token (data : claims) (expires_delta : option Q)
    (utcnow : Z) : string :=
  let to_encode := data in
  let expire :=
    match expires_delta with
    | Some x =>
        if float_truthy x then utcnow + timedelta_seconds (py_int x)
        else utcnow + timedelta_minutes 15
    | None => utcnow + timedelta_minutes 15
    end in
  let to_encode := <["exp" := JInt expire]> to_encode in
  let encoded_jwt := jwt.encode to_encode SECRET_KEY ALGORITHM in
  encoded_jwt.

(** Returns the token and the committed session. The token is built
    before the user is looked up; [data["sub"]] raises [KeyError] on a
    payload without subject, and [user.refresh_token = ...] raises
    [AttributeError] when [first()] gave [None]. *)
Definition create_refresh_token (data : claims) (db : list User)
    (expires_delta : option Q) (utcnow : Z) : result (string * list User) :=
  let to_encode := data in
  let expire :=
    match expires_delta with
    | Some x =>
        if float_truthy x then utcnow + timedelta_seconds (py_int x)
        else utcnow + timedelta_minutes (60 * 24)
    | None => utcnow + timedelta_minutes (60 * 24)
    end in
  let to_encode := <["exp" := JInt expire]> to_encode in
  let encoded_refresh_token := jwt.encode to_encode SECRET_KEY ALGORITHM in
  sub ← getitem data "sub";
  match query_first (email_is sub) db with
  | None => Raises (AttributeError "refresh_token")
  | Some user =>
      Returns (encoded_refresh_token,
               commit_refresh_token (email_is sub) encoded_refresh_token db)
  end.

(** [None] is returned for a token [jwt.decode] refuses and for a payload
    without (or with a null) [sub]. *)
Definition get_login_from_refresh_token (refresh_token : string) (now : Z)
  : result (option json) :=
  try_except_JWTError
    (payload ← jwt.decode refresh_token SECRET_KEY [ALGORITHM] now;
     let login := dict_get payload "sub" in
     Returns login)
    (Returns None).

(** The dictionary [{"access_token": ..., "token_type": "bearer"}] *)
Record token_response : Type := mkTokenResponse {
  access_token : string;
  token_type : string
}.

Definition create_access_token_from_refresh_token (refresh_token : string)
    (db : list User) (now : Z) : result token_response :=
  login ← get_login_from_refresh_token refresh_token now;
  match login with
  | None => Raises (HTTPException 401 "Refresh token is invalid" [])
  | Some login =>
      match get_user_by_email db login with
      | None => Raises (HTTPException 401 "User not found" [])
      | Some user =>
          let access_token_expires :=
            timedelta_minutes ACCESS_TOKEN_EXPIRE_MINUTES in
          let access_token :=
            create_access_token {["sub" := JStr (email user)]}
              (Some (total_seconds access_token_expires)) now in
          Returns {| access_token := access_token; token_type := "bearer" |}
      end
  end.

Definition credentials_exception : exn :=
  HTTPException 401 "Could not validate credentials"
    [("WWW-Authenticate", "Bearer")].

Definition get_current_user (token : string) (db : list User) (now : Z)
  : result User :=
  email ← try_except_JWTError
    (let token := removeprefix token "Bearer " in
     payload ← jwt.decode token SECRET_KEY [ALGORITHM] now;
     email ← getitem payload "sub";
     match email with
     | JNull => Raises credentials_exception
     | _ => Returns email
     end)
    (Raises credentials_exception);
  match query_first (email_is email) db with
  | None => Raises credentials_exception
  | Some user => Returns user
  end.

End tokens_access.
End tokens_access.

(** The token [create_refresh_token] builds before it looks the user up,
    as a function of the payload, the lifetime and the clock reading. *)
Definition refresh_token_for {lib : JWT} (SECRET_KEY : string) (data : claims)
    (expires_delta : option Q) (utcnow : Z) : string :=
  jwt.encode
    (<["exp" := JInt (utcnow +
        match expires_delta with
        | Some x => if float_truthy x then py_int x else 60 * 24 * 60
        | None => 60 * 24 * 60
        end)]> data)
    SECRET_KEY tokens_access.ALGORITHM.

(** The expiry [create_refresh_token] gives that token: the clock reading
    plus the lifetime passed, when it is truthy, and plus one day
    otherwise. *)
Definition refresh_expiry (expires_delta : option Q) (utcnow : Z) : Z :=
  utcnow +
  match expires_delta with
  | Some x => if float_truthy x then py_int x else 60 * 24 * 60
  | None => 60 * 24 * 60
  end.

(** ** utils/token.py *)

Module token.
Section token.
Context {lib : JWT}.

Variable SECRET_KEY : string.

Definition ALGORITHM : string := "HS256".
Definition VERIFICATION_TOKEN_EXPIRE_MINUTES : Z := 60.

Definition generate_verification_token (email : string) (utcnow : Z)
  : string :=
  let expiration :=
    utcnow + timedelta_minutes VERIFICATION_TOKEN_EXPIRE_MINUTES in
  let payload : claims :=
    <["sub" := JStr email]> (<["exp" := JInt expiration]> ∅) in
  let verification_token := jwt.encode payload SECRET_KEY ALGORITHM in
  verification_token.

(** [payload["sub"] == email] *)
Definition json_eq_str (v : json) (s : string) : bool :=
  match v with
  | JStr s' => String.eqb s' s
  | _ => false
  end.

(** Both handlers ([ExpiredSignatureError], [PyJWTError]) pass, so an
    error of the package falls through to [return False]; so does a
    subject that differs. *)
Definition verify_verification_token (email token : string) (now : Z)
  : result bool :=
  try_except_JWTError
    (payload ← jwt.decode token SECRET_KEY [ALGORITHM] now;
     sub ← getitem payload "sub";
     if json_eq_str sub email then Returns true else Returns false)
    (Returns false).

End token.
End token.

(** ** An implementation of the interface

    A small implementation of [JWT], to run the code above on concrete
    tokens. The token is the header mark followed by the binary numeral of
    the code of (algorithm, key, payload); verifying decodes it and compares
    algorithm and key. It has python-jose's boundary: a token is expired
    when [exp < now]. *)

Module simple_jwt.

Fixpoint bits (p : positive) : string :=
  match p with
  | xH => EmptyString
  | xO p' => String "0" (bits p')
  | xI p' => String "1" (bits p')
  end.

Fixpoint of_bits (s : string) : option positive :=
  match s with
  | EmptyString => Some xH
  | String a s' =>
      match of_bits s' with
      | Some p =>
          if Ascii.eqb a "0" then Some (xO p)
          else if Ascii.eqb a "1" then Some (xI p)
          else None
      | None => None
      end
  end.

Definition sign (c : claims) (key alg : string) : string :=
  "eyJ" ++ bits (encode (alg, key, c)).

Definition verify (token key : string) (algs : list string) : option claims :=
  match strip_prefix "eyJ" token with
  | Some body =>
      match of_bits body with
      | Some p =>
          match (decode p : option (string * string * claims)) with
          | Some (alg, key', c) =>
              if bool_decide (key' = key /\ alg ∈ algs) then Some c else None
          | None => None
          end
      | None => None
      end
  | None => None
  end.

Definition is_expired (e now : Z) : bool := Z.ltb e now.

Definition validate (c : claims) (now : Z) : option jwt_error :=
  match c !! "exp" with
  | Some (JInt e) =>
      if is_expired e now then Some ExpiredSignatureError else None
  | Some _ => Some JWTClaimsError
  | None => None
  end.

Lemma of_bits_bits (p : positive) : of_bits (bits p) = Some p.
Proof.
  induction p as [p IH | p IH |]; simpl; [rewrite IH | rewrite IH |];
    reflexivity.
Qed.

Lemma strip_prefix_app (p s : string) : strip_prefix p (p ++ s) = Some s.
Proof.
  induction p as [| a p IH]; simpl; [reflexivity |].
  rewrite Ascii.eqb_refl. exact IH.
Qed.

Lemma verify_sign (c : claims) (key alg : string) (algs : list string) :
  alg ∈ algs -> verify (sign c key alg) key algs = Some c.
Proof.
  intros Halg. unfold verify, sign.
  rewrite strip_prefix_app, of_bits_bits, decode_encode.
  rewrite bool_decide_eq_true_2; [reflexivity | split; [reflexivity | exact Halg]].
Qed.

Lemma validate_rejects_expired (c : claims) (e now : Z) :
  c !! "exp" = Some (JInt e) -> is_expired e now = true ->
  validate c now <> None.
Proof.
  intros Hexp He. unfold validate. rewrite Hexp, He. discriminate.
Qed.

Lemma validate_on_plain (c : claims) (now : Z) :
  plain_claims c -> validate c now = check_exp is_expired c now.
Proof.
  intros (_ & _ & Hexp). unfold validate, check_exp.
  destruct (c !! "exp") as [v |] eqn:E; [| reflexivity].
  destruct (Hexp v eq_refl) as [e ->]. reflexivity.
Qed.

#[export] Instance impl : JWT := {|
  jws_sign := sign;
  jws_verify := verify;
  validate_claims := validate;
  expired := is_expired;
  jws_verify_sign := verify_sign;
  jws_sign_header := fun c key alg =>
    ex_intro _ (bits (encode (alg, key, c))) eq_refl;
  expired_past := fun e now H => proj2 (Z.ltb_lt e now) H;
  expired_future := fun e now H => proj2 (Z.ltb_ge e now) (Z.lt_le_incl _ _ H);
  validate_expired := validate_rejects_expired;
  validate_plain := validate_on_plain
|}.

End simple_jwt.

(** The same implementation with PyJWT's boundary: a token is expired
    when [exp <= now]. *)

Module simple_pyjwt.

Definition is_expired (e now : Z) : bool := Z.leb e now.

Definition validate (c : claims) (now : Z) : option jwt_error :=
  match c !! "exp" with
  | Some (JInt e) =>
      if is_expired e now then Some ExpiredSignatureError else None
  | Some _ => Some JWTClaimsError
  | None => None
  end.

Lemma pyjwt_validate_rejects_expired (c : claims) (e now : Z) :
  c !! "exp" = Some (JInt e) -> is_expired e now = true ->
  validate c now <> None.
Proof.
  intros Hexp He. unfold validate. rewrite Hexp, He. discriminate.
Qed.

Lemma pyjwt_validate_on_plain (c : claims) (now : Z) :
  plain_claims c -> validate c now = check_exp is_expired c now.
Proof.
  intros (_ & _ & Hexp). unfold validate, check_exp.
  destruct (c !! "exp") as [v |] eqn:E; [| reflexivity].
  destruct (Hexp v eq_refl) as [e ->]. reflexivity.
Qed.

#[export] Instance impl : JWT := {|
  jws_sign := simple_jwt.sign;
  jws_verify := simple_jwt.verify;
  validate_claims := validate;
  expired := is_expired;
  jws_verify_sign := simple_jwt.verify_sign;
  jws_sign_header := fun c key alg =>
    ex_intro _ (simple_jwt.bits (encode (alg, key, c))) eq_refl;
  expired_past := fun e now H =>
    proj2 (Z.leb_le e now) (Z.lt_le_incl _ _ H);
  expired_future := fun e now H => proj2 (Z.leb_gt e now) H;
  validate_expired := pyjwt_validate_rejects_expired;
  validate_plain := pyjwt_validate_on_plain
|}.

End simple_pyjwt.

(** ** passlib and the exceptions of the routes *)

(** [pwd_context = CryptContext(schemes=["bcrypt"], deprecated="auto")].
    - [pwd_hash secret salt] is [pwd_context.hash(secret)]; the salt is
      drawn by the package at each call. [None] when the package raises
      instead of returning a hash: it refuses a secret that is too long
      ([PasswordSizeError]) or that the scheme cannot take (bcrypt and a
      NUL byte).
    - [pwd_verify secret hash] is [pwd_context.verify(secret, hash)]:
      [None] when the package raises instead of answering: the stored
      value is of no known scheme ([UnknownHashError]), is a malformed
      bcrypt hash ([ValueError]), or the secret is one it refuses.
    The law is the package's contract: a secret verifies against each
    hash the package made of it. Nothing is assumed of other secrets
    (bcrypt ignores what follows the first 72 bytes). *)
Class CryptContext : Type := {
  pwd_hash : string -> string -> option string;
  pwd_verify : string -> string -> option bool;
  pwd_verify_hash : forall secret salt hashed,
    pwd_hash secret salt = Some hashed ->
    pwd_verify secret hashed = Some true
}.

(** What database/users.py, utils/email.py and main.py can raise: the
    exceptions above; [PasslibError], the exception a call of passlib
    raised, whatever its class ([UnknownHashError], [ValueError],
    [PasswordSizeError], ...); SQLAlchemy's [IntegrityError] on a commit
    that breaks [unique=True]; and pydantic's [ValidationError]. *)
Inductive app_exn : Type :=
| Exn (e : exn)
| PasslibError
| IntegrityError
| ValidationError.

Inductive outcome (A : Type) : Type :=
| Done (a : A)
| Failed (e : app_exn).

Arguments Done {A} a.
Arguments Failed {A} e.

#[global] Instance outcome_bind : MBind outcome :=
  fun A B (k : A -> outcome B) (r : outcome A) =>
    match r with
    | Done a => k a
    | Failed e => Failed e
    end.

(** A call into tokens_access.py or utils/token.py from a route. *)
Definition lift {A : Type} (r : result A) : outcome A :=
  match r with
  | Returns a => Done a
  | Raises e => Failed (Exn e)
  end.

(** [user.is_verified = True] *)
Definition set_is_verified (u : User) : User :=
  {| id := id u;
     email := email u;
     hashed_password := hashed_password u;
     refresh_token := refresh_token u;
     is_verified := true;
     avatar_url := avatar_url u |}.

(** An assignment to the row [query_first p] returned, then
    [db.commit()]: that row is rewritten by [f], the rest is kept. *)
Fixpoint commit_row (p : User -> bool) (f : User -> User) (db : list User)
  : list User :=
  match db with
  | [] => []
  | u :: rest => if p u then f u :: rest else u :: commit_row p f rest
  end.

(** [db.delete(user); db.commit()], where [user] is the row
    [query_first p] returned. *)
Fixpoint delete_row (p : User -> bool) (db : list User) : list User :=
  match db with
  | [] => []
  | u :: rest => if p u then rest else u :: delete_row p rest
  end.

(** ** utils/email.py *)

(** [MessageSchema(subject=..., recipients=..., body=..., subtype=...)] *)
Record MessageSchema : Type := mkMessageSchema {
  subject : string;
  recipients : list string;
  body : string;
  subtype : string
}.

(** fastapi_mail, as the source uses it.
    - [valid_recipient a]: the address check [MessageSchema] runs on each
      recipient; a refused one raises pydantic's [ValidationError].
    - [send_message m] is [await fast_mail.send_message(m)]: [None] when
      the message was handed over, [Some s] when an exception was raised,
      [s] being its [str]. *)
Class FastMail : Type := {
  valid_recipient : string -> bool;
  send_message : MessageSchema -> option string
}.

Module utils_email.
Section utils_email.
Context {fast_mail : FastMail}.

(** The text of the link is kept as its UTF-8 bytes. *)
Definition verification_body (verification_token : string) : string :=
  "Перейдіть за посиланням для підтвердження: http://example.com/confirm-email?token="
  ++ verification_token.

(** The [MessageSchema] is built outside the [try]; only the sending is
    inside it. The value returned is the JSON body of the response. *)
Definition send_email_verification (email verification_token : string)
  : outcome claims :=
  if forallb valid_recipient [email] then
    let message :=
      {| subject := "Підтвердження електронної пошти";
         recipients := [email];
         body := verification_body verification_token;
         subtype := "html" |} in
    match send_message message with
    | None => Done {["message" := JStr "Email sent successfully"]}
    | Some e =>
        Failed (Exn (HTTPException 500 ("Помилка відправки листа: " ++ e) []))
    end
  else Failed ValidationError.

End utils_email.
End utils_email.

(** ** database/models.py: the [contacts] table, and calendar dates *)

Record date : Type := mkDate {
  year : Z;
  month : Z;
  day : Z
}.

Definition is_leap (y : Z) : bool :=
  Z.eqb (y mod 4) 0 && (negb (Z.eqb (y mod 100) 0) || Z.eqb (y mod 400) 0).

Definition days_in_month (y m : Z) : Z :=
  if Z.eqb m 2 then (if is_leap y then 29 else 28)
  else if Z.eqb m 4 || Z.eqb m 6 || Z.eqb m 9 || Z.eqb m 11 then 30
  else 31.

(** [d + timedelta(days=7)]: a week reaches into the next month at most.
    (The year is not bounded by 9999 here.) *)
Definition plus_7_days (d : date) : date :=
  let dim := days_in_month (year d) (month d) in
  if Z.leb (day d + 7) dim then mkDate (year d) (month d) (day d + 7)
  else if Z.eqb (month d) 12 then mkDate (year d + 1) 1 (day d + 7 - dim)
  else mkDate (year d) (month d + 1) (day d + 7 - dim).

Module contact.

Record Contact : Type := mkContact {
  id : Z;
  first_name : string;
  last_name : string;
  email : string;
  phone_number : string;
  birthdate : option date;
  additional_info : option string;
  user_email : option string
}.

End contact.

(** ** database/users.py *)

Module users.
Section users.
Context {pwd_context : CryptContext}.

Definition get_user (db : list User) (user_id : Z) : option User :=
  query_first (fun u => Z.eqb (id u) user_id) db.

(** [pwd_context.hash(password)] first, which may raise; then
    [User(email=email, hashed_password=hashed_password)], [db.add],
    [db.commit], [db.refresh]. [salt] is the salt passlib draws and
    [new_id] the primary key the database assigns to the row; the other
    columns take their defaults. The commit raises [IntegrityError] when a
    row already has the e-mail ([unique=True]). *)
Definition create_user (db : list User) (email password : string)
    (salt : string) (new_id : Z) : outcome (User * list User) :=
  match pwd_hash password salt with
  | None => Failed PasslibError
  | Some hashed_password =>
      let db_user := mkUser new_id email hashed_password None false None in
      match get_user_by_email db (JStr email) with
      | Some _ => Failed IntegrityError
      | None => Done (db_user, (db ++ [db_user])%list)
      end
  end.

Definition authenticate_user (db : list User) (email password : string)
  : outcome (option User) :=
  let user := get_user_by_email db (JStr email) in
  match user with
  | None => Done None
  | Some user =>
      match pwd_verify password (hashed_password user) with
      | None => Failed PasslibError
      | Some false => Done None
      | Some true => Done (Some user)
      end
  end.

End users.
End users.

(** ** main.py: the routes that issue and consume tokens *)

Module main.
Section main.
Context {lib : JWT} {pwd_context : CryptContext} {fast_mail : FastMail}.

(** Both token modules read the same [SECRET_KEY] from the environment. *)
Variable SECRET_KEY : string.

(** [POST /register/]. The mail goes out before the user is created.
    [salt] and [new_id] are what passlib and the database draw in
    [create_user]. Returns the created user and the committed session. *)
Definition register_user (user_email user_password : string)
    (db : list User) (utcnow : Z) (salt : string) (new_id : Z)
  : outcome (User * list User) :=
  let existing_user := get_user_by_email db (JStr user_email) in
  match existing_user with
  | Some _ =>
      Failed (Exn (HTTPException 409 "User with this email already exists" []))
  | None =>
      let verification_token :=
        token.generate_verification_token SECRET_KEY user_email utcnow in
      _ ← utils_email.send_email_verification user_email verification_token;
      created ← users.create_user db user_email user_password salt new_id;
      let created_user := fst created in
      Done (created_user, snd created)
  end.

(** [GET /confirm-email/]. [user and verify_verification_token(...)]
    does not call the verification for an unknown address. Returns the
    response body and the committed session. *)
Definition confirm_email (token email : string) (db : list User) (now : Z)
  : result (claims * list User) :=
  let user := get_user_by_email db (JStr email) in
  match user with
  | None => Raises (HTTPException 400 "Invalid token or user not found" [])
  | Some user =>
      ok ← token.verify_verification_token SECRET_KEY email token now;
      if ok : bool then
        Returns ({["message" := JStr "Email has been confirmed"]},
                 commit_row (email_is (JStr email)) set_is_verified db)
      else Raises (HTTPException 400 "Invalid token or user not found" [])
  end.

(** [db_user.avatar_url if db_user.avatar_url else None] *)
Definition avatar_or_none (u : User) : json :=
  match avatar_url u with
  | Some EmptyString => JNull
  | Some s => JStr s
  | None => JNull
  end.

(** [POST /token/]. The two tokens are built one after the other, each
    with its own clock reading. Returns the response body and the
    committed session. *)
Definition login_for_access_token (username password : string)
    (db : list User) (utcnow utcnow' : Z) : outcome (claims * list User) :=
  db_user ← users.authenticate_user db username password;
  match db_user with
  | None =>
      Failed (Exn (HTTPException 401 "Incorrect email or password" []))
  | Some db_user =>
      let access_token_expires :=
        timedelta_minutes tokens_access.ACCESS_TOKEN_EXPIRE_MINUTES in
      let access_token :=
        tokens_access.create_access_token SECRET_KEY
          {["sub" := JStr (email db_user)]}
          (Some (total_seconds access_token_expires)) utcnow in
      let refresh_token_expires :=
        timedelta_minutes tokens_access.REFRESH_TOKEN_EXPIRE_MINUTES in
      issued ← lift (tokens_access.create_refresh_token SECRET_KEY
                       {["sub" := JStr (email db_user)]} db
                       (Some (total_seconds refresh_token_expires)) utcnow');
      let refresh_token := fst issued in
      let avatar_url := avatar_or_none db_user in
      Done (<["access_token" := JStr access_token]>
              (<["token_type" := JStr "bearer"]>
                 (<["refresh_token" := JStr refresh_token]>
                    {["avatar_url" := avatar_url]})),
            snd issued)
  end.

(** [POST /refresh-token/] *)
Definition refresh_access_token (refresh_token : string) (db : list User)
    (now : Z) : result tokens_access.token_response :=
  tokens_access.create_access_token_from_refresh_token SECRET_KEY
    refresh_token db now.

(** [DELETE /users/{user_id}/]. Returns the response body and the
    committed session (the rows of [users]). *)
Definition delete_user (user_id : Z) (db : list User)
  : result (claims * list User) :=
  let user := query_first (fun u => Z.eqb (id u) user_id) db in
  match user with
  | None => Raises (HTTPException 404 "User not found" [])
  | Some user =>
      Returns ({["message" := JStr "User deleted successfully"]},
               delete_row (fun u => Z.eqb (id u) user_id) db)
  end.

(** [GET /contacts/birthday]. [today] is [datetime.now().date()] and
    [contacts] the rows of the table; a row without birthdate passes no
    comparison. *)
Definition upcoming_birthdays (contacts : list contact.Contact)
    (today : date) : list contact.Contact :=
  let current_date := today in
  let seven_days_from_now := plus_7_days current_date in
  List.filter
    (fun c =>
       match contact.birthdate c with
       | Some b =>
           Z.eqb (month b) (month current_date)
           && Z.leb (day current_date) (day b)
           && Z.leb (day b) (day seven_days_from_now)
       | None => false
       end)
    contacts.

End main.
End main.

(** ** A mail package that accepts and delivers everything, and one whose
    server refuses *)

Module simple_mail.

Definition delivering : FastMail := {|
  valid_recipient := fun _ => true;
  send_message := fun _ => None
|}.

Definition refusing : FastMail := {|
  valid_recipient := fun _ => true;
  send_message := fun _ => Some "Connection refused"
|}.

End simple_mail.

(** ** An implementation of the password context

    The hash is the scheme mark followed by the binary numeral of the code
    of (salt, secret); a value without the mark, or whose rest is no such
    numeral, is not a hash. A secret of more than 4096 characters, or with
    a NUL character, is refused by hashing and by verifying alike. *)

Module simple_passlib.

Fixpoint has_nul (s : string) : bool :=
  match s with
  | EmptyString => false
  | String a s' => Ascii.eqb a Ascii.zero || has_nul s'
  end.

Definition acceptable (secret : string) : bool :=
  Nat.leb (String.length secret) 4096 && negb (has_nul secret).

Definition hash (secret salt : string) : string :=
  "$2b$" ++ simple_jwt.bits (encode (salt, secret)).

Definition hash_secret (secret salt : string) : option string :=
  if acceptable secret then Some (hash secret salt) else None.

Definition verify (secret hashed : string) : option bool :=
  if acceptable secret then
    match strip_prefix "$2b$" hashed with
    | Some body =>
        match simple_jwt.of_bits body with
        | Some p =>
            match (decode p : option (string * string)) with
            | Some (_, secret') => Some (String.eqb secret' secret)
            | None => None
            end
        | None => None
        end
    | None => None
    end
  else None.

Lemma verify_hash (secret salt hashed : string) :
  hash_secret secret salt = Some hashed -> verify secret hashed = Some true.
Proof.
  unfold hash_secret, verify, hash.
  destruct (acceptable secret); [| discriminate].
  intros H. injection H as <-.
  rewrite simple_jwt.strip_prefix_app, simple_jwt.of_bits_bits, decode_encode.
  rewrite String.eqb_refl. reflexivity.
Qed.

#[export] Instance impl : CryptContext := {|
  pwd_hash := hash_secret;
  pwd_verify := verify;
  pwd_verify_hash := verify_hash
|}.

End simple_passlib.

(** ** More concrete inputs *)

(** A user whose stored hash is of the password [hunter2], and a store
    with that user. *)
Definition dave : User :=
  mkUser 3 "d@example.com" (simple_passlib.hash "hunter2" "c2FsdA") None
    false (Some "").

Definition login_store : list User :=
  mkUser 2 "b@example.com" "$2b$12$bob" None true None :: dave :: nil.

(** Contacts of two owners, one without birthdate. *)
Definition ann : contact.Contact :=
  contact.mkContact 1 "Ann" "Lee" "ann@example.org" "555-0101"
    (Some (mkDate 1990 5 20)) None (Some "a@example.com").

Definition ben : contact.Contact :=
  contact.mkContact 2 "Ben" "Ito" "ben@example.org" "555-0102"
    (Some (mkDate 1985 2 1)) None (Some "b@example.com").

Definition cleo : contact.Contact :=
  contact.mkContact 3 "Cleo" "Roy" "cleo@example.org" "555-0103"
    None None (Some "a@example.com").

Definition example_contacts : list contact.Contact := ann :: ben :: cleo :: nil.

(** ** Concrete inputs

    A key, a store of two users and a few tokens of [simple_jwt.impl], on
    which the code is run at the end of the file. *)

Definition example_key : string := "s3cr3t".

Definition alice : User :=
  mkUser 1 "a@example.com" "$2b$12$alice" None false None.

Definition bob : User :=
  mkUser 2 "b@example.com" "$2b$12$bob" None true None.

Definition example_store : list User := [bob; alice].

(** Payloads: a subject with an expiry at 1000, and an expiry at 5000
    with no subject. *)
Definition example_claims : claims :=
  <["sub" := JStr "u@example.com"]> (<["exp" := JInt 1000]> ∅).

Definition no_subject_claims : claims := {["exp" := JInt 5000]}.

Definition example_token : string :=
  jws_sign (JWT := simple_jwt.impl) example_claims example_key "HS256".

Definition no_subject_token : string :=
  jws_sign (JWT := simple_jwt.impl) no_subject_claims example_key "HS256".

(** The access token the login route issues for a@example.com at clock
    reading 1000. *)
Definition alice_token : string :=
  tokens_access.create_access_token (lib := simple_jwt.impl) example_key
    {["sub" := JStr "a@example.com"]} (Some (total_seconds 1800)) 1000.

(** * Properties *)

(** ** Strings, payloads and the package *)

(** Runs the sequencing of a modelled function body. *)
Ltac run_body :=
  unfold mbind, result_bind, try_except_JWTError, getitem; simpl.

Lemma removeprefix_app (p s : string) : removeprefix (p ++ s) p = s.
Proof. unfold removeprefix. rewrite simple_jwt.strip_prefix_app. reflexivity. Qed.

Lemma plain_claims_empty : plain_claims ∅.
Proof.
  split; [| split].
  - rewrite dom_empty_L. apply empty_subseteq.
  - intros v H. rewrite lookup_empty in H. discriminate.
  - intros v H. rewrite lookup_empty in H. discriminate.
Qed.

Lemma plain_claims_insert_sub (c : claims) (s : string) :
  plain_claims c -> plain_claims (<["sub" := JStr s]> c).
Proof.
  intros (Hdom & Hsub & Hexp). split; [| split].
  - rewrite dom_insert_L. apply union_subseteq.
    split; [apply union_subseteq_l | exact Hdom].
  - intros v. rewrite lookup_insert_eq. intros Hv. injection Hv as <-. eauto.
  - intros v. rewrite lookup_insert_ne by discriminate. apply Hexp.
Qed.

Lemma plain_claims_insert_exp (c : claims) (e : Z) :
  plain_claims c -> plain_claims (<["exp" := JInt e]> c).
Proof.
  intros (Hdom & Hsub & Hexp). split; [| split].
  - rewrite dom_insert_L. apply union_subseteq.
    split; [apply union_subseteq_r | exact Hdom].
  - intros v. rewrite lookup_insert_ne by discriminate. apply Hsub.
  - intros v. rewrite lookup_insert_eq. intros Hv. injection Hv as <-. eauto.
Qed.

Lemma plain_claims_sub (s : string) : plain_claims {["sub" := JStr s]}.
Proof. apply plain_claims_insert_sub, plain_claims_empty. Qed.

Section package.
Context {lib : JWT}.

(** A signed token starts with the header segment, never with the
    authentication scheme, so [removeprefix] leaves it as it is. *)
Lemma removeprefix_signed (c : claims) (key alg : string) :
  removeprefix (jws_sign c key alg) "Bearer " = jws_sign c key alg.
Proof.
  destruct (jws_sign_header c key alg) as [rest ->]. reflexivity.
Qed.

Lemma decode_verified (token key : string) (algs : list string) (now : Z)
    (c : claims) :
  jws_verify token key algs = Some c ->
  jwt.decode token key algs now =
    match validate_claims c now with
    | Some e => Raises (JWTError e)
    | None => Returns c
    end.
Proof. intros H. unfold jwt.decode. rewrite H. reflexivity. Qed.

Lemma decode_Returns (token key : string) (algs : list string) (now : Z)
    (c : claims) :
  jwt.decode token key algs now = Returns c <->
  jws_verify token key algs = Some c /\ validate_claims c now = None.
Proof.
  unfold jwt.decode. split.
  - destruct (jws_verify token key algs) as [c' |]; [| discriminate].
    destruct (validate_claims c' now) eqn:E; [discriminate |].
    intros Hc. injection Hc as ->. split; [reflexivity | exact E].
  - intros [-> ->]. reflexivity.
Qed.

(** [jwt.decode] fails with errors of the package only. *)
Lemma decode_Raises (token key : string) (algs : list string) (now : Z)
    (x : exn) :
  jwt.decode token key algs now = Raises x -> exists e, x = JWTError e.
Proof.
  unfold jwt.decode.
  destruct (jws_verify token key algs) as [c |].
  - destruct (validate_claims c now); [| discriminate].
    intros Hx. injection Hx as <-. eauto.
  - intros Hx. injection Hx as <-. eauto.
Qed.

Lemma decode_expired (token key : string) (algs : list string) (now e : Z)
    (c : claims) :
  jws_verify token key algs = Some c ->
  c !! "exp" = Some (JInt e) -> e < now ->
  exists err, jwt.decode token key algs now = Raises (JWTError err).
Proof.
  intros Hv Hexp Hlt. rewrite (decode_verified _ _ _ _ _ Hv).
  pose proof (validate_expired c e now Hexp (expired_past e now Hlt)) as Hne.
  destruct (validate_claims c now) as [err |]; [eauto | congruence].
Qed.

Lemma decode_unexpired (token key : string) (algs : list string) (now e : Z)
    (c : claims) :
  jws_verify token key algs = Some c -> plain_claims c ->
  c !! "exp" = Some (JInt e) -> now < e ->
  jwt.decode token key algs now = Returns c.
Proof.
  intros Hv Hplain Hexp Hlt. rewrite (decode_verified _ _ _ _ _ Hv).
  rewrite (validate_plain c now Hplain). unfold check_exp.
  rewrite Hexp, (expired_future e now Hlt). reflexivity.
Qed.

(** Decoding what [jwt.encode] built from a plain payload: the payload
    comes back unless it is expired. *)
Lemma jwt_decode_encode (c : claims) (key alg : string) (now : Z) :
  plain_claims c ->
  jwt.decode (jwt.encode c key alg) key [alg] now =
    match check_exp expired c now with
    | Some e => Raises (JWTError e)
    | None => Returns c
    end.
Proof.
  intros Hplain. unfold jwt.encode.
  rewrite (decode_verified _ _ _ _ c).
  - rewrite (validate_plain c now Hplain). reflexivity.
  - apply jws_verify_sign. apply list_elem_of_In. left. reflexivity.
Qed.

End package.

(** ** tokens_access.py: decoding and bearer authentication *)

Section tokens_access_decode.
Context {lib : JWT}.
Variable SECRET_KEY : string.

Local Abbreviation ALG := tokens_access.ALGORITHM.

Lemma get_login_verified (token : string) (now : Z) (c : claims) :
  jws_verify token SECRET_KEY [ALG] = Some c ->
  tokens_access.get_login_from_refresh_token SECRET_KEY token now =
    match validate_claims c now with
    | Some _ => Returns None
    | None => Returns (dict_get c "sub")
    end.
Proof.
  intros Hv. unfold tokens_access.get_login_from_refresh_token.
  rewrite (decode_verified _ _ _ _ _ Hv).
  destruct (validate_claims c now); reflexivity.
Qed.

(** C1, as the code has it. [jwt.decode] checks authenticity and expiry
    together: for a token whose signature is valid under the secret and
    whose body parses to [c] with expiry [e], decoding after [e] fails with
    an error of the package, and [get_login_from_refresh_token] returns
    [None]; decoding before [e] returns the claims (for a payload of
    subject and expiry only), and the login is its subject. *)
Theorem decode_checks_authenticity_and_expiry
    (token : string) (c : claims) (e now : Z) :
  jws_verify token SECRET_KEY [ALG] = Some c ->
  c !! "exp" = Some (JInt e) ->
  (e < now ->
     (exists err,
        jwt.decode token SECRET_KEY [ALG] now = Raises (JWTError err))
     /\ tokens_access.get_login_from_refresh_token SECRET_KEY token now
        = Returns None)
  /\ (now < e -> plain_claims c ->
     jwt.decode token SECRET_KEY [ALG] now = Returns c
     /\ tokens_access.get_login_from_refresh_token SECRET_KEY token now
        = Returns (dict_get c "sub")).
Proof.
  intros Hv Hexp. split.
  - intros Hlt. split.
    + exact (decode_expired _ _ _ _ _ _ Hv Hexp Hlt).
    + rewrite (get_login_verified _ _ _ Hv).
      pose proof (validate_expired c e now Hexp (expired_past e now Hlt)).
      destruct (validate_claims c now); [reflexivity | congruence].
  - intros Hlt Hplain.
    pose proof (decode_unexpired _ _ _ _ _ _ Hv Hplain Hexp Hlt) as Hd.
    split; [exact Hd |].
    apply decode_Returns in Hd as [_ Hval].
    rewrite (get_login_verified _ _ _ Hv), Hval. reflexivity.
Qed.

(** What [get_current_user] does once the token is verified. *)
Lemma get_current_user_verified (token : string) (db : list User) (now : Z)
    (c : claims) :
  jws_verify (removeprefix token "Bearer ") SECRET_KEY [ALG] = Some c ->
  validate_claims c now = None ->
  tokens_access.get_current_user SECRET_KEY token db now =
    match c !! "sub" with
    | None => Raises (KeyError "sub")
    | Some JNull => Raises tokens_access.credentials_exception
    | Some v =>
        match query_first (email_is v) db with
        | None => Raises tokens_access.credentials_exception
        | Some user => Returns user
        end
    end.
Proof.
  intros Hv Hval. unfold tokens_access.get_current_user.
  rewrite (decode_verified _ _ _ _ _ Hv), Hval. run_body.
  destruct (c !! "sub") as [[| n | s] |]; reflexivity.
Qed.

(** C2, the failing case. A bearer token that is validly signed and passes
    the checks of the claims, but whose payload has no ["sub"] key, makes
    [get_current_user] raise [KeyError]: [payload["sub"]] is evaluated
    inside a [try] that catches [JWTError] only, so the failure is not
    turned into the 401 [credentials_exception]. *)
Theorem get_current_user_missing_subject
    (token : string) (c : claims) (db : list User) (now : Z) :
  jws_verify (removeprefix token "Bearer ") SECRET_KEY [ALG] = Some c ->
  validate_claims c now = None ->
  c !! "sub" = None ->
  tokens_access.get_current_user SECRET_KEY token db now
  = Raises (KeyError "sub").
Proof.
  intros Hv Hval Hsub.
  rewrite (get_current_user_verified _ _ _ _ Hv Hval), Hsub. reflexivity.
Qed.

(** Every outcome of [get_current_user]: a user, the 401
    [credentials_exception], or the [KeyError] of a payload without
    subject. *)
Lemma get_current_user_outcomes (token : string) (db : list User) (now : Z) :
  (exists u, tokens_access.get_current_user SECRET_KEY token db now = Returns u)
  \/ tokens_access.get_current_user SECRET_KEY token db now
     = Raises tokens_access.credentials_exception
  \/ tokens_access.get_current_user SECRET_KEY token db now
     = Raises (KeyError "sub").
Proof.
  destruct (jws_verify (removeprefix token "Bearer ") SECRET_KEY [ALG])
    as [c |] eqn:Hv.
  - destruct (validate_claims c now) as [err |] eqn:Hval.
    + right; left. unfold tokens_access.get_current_user.
      rewrite (decode_verified _ _ _ _ _ Hv), Hval. reflexivity.
    + rewrite (get_current_user_verified _ _ _ _ Hv Hval).
      destruct (c !! "sub") as [v |]; [| right; right; reflexivity].
      destruct (query_first (email_is v) db) as [u |];
        destruct v; eauto.
  - right; left. unfold tokens_access.get_current_user, jwt.decode.
    rewrite Hv. reflexivity.
Qed.

Lemma query_first_email (v : json) (db : list User) (u : User) :
  query_first (email_is v) db = Some u -> v = JStr (email u) /\ In u db.
Proof.
  intros H. apply List.find_some in H as [Hin Hp].
  split; [| exact Hin].
  destruct v as [| n | s]; simpl in Hp; try discriminate.
  apply String.eqb_eq in Hp. congruence.
Qed.

(** C3. When [get_current_user] succeeds on a token signed for subject
    [a], the user it returns is a row of the store whose e-mail is [a]:
    never the record of another address. *)
Theorem get_current_user_returns_subject
    (token a : string) (c : claims) (db : list User) (now : Z) (u : User) :
  jws_verify (removeprefix token "Bearer ") SECRET_KEY [ALG] = Some c ->
  c !! "sub" = Some (JStr a) ->
  tokens_access.get_current_user SECRET_KEY token db now = Returns u ->
  email u = a /\ In u db.
Proof.
  intros Hv Hsub Hret.
  destruct (validate_claims c now) as [err |] eqn:Hval.
  - unfold tokens_access.get_current_user in Hret.
    rewrite (decode_verified _ _ _ _ _ Hv), Hval in Hret. discriminate.
  - rewrite (get_current_user_verified _ _ _ _ Hv Hval), Hsub in Hret.
    destruct (query_first (email_is (JStr a)) db) as [u' |] eqn:Hq;
      [| discriminate].
    injection Hret as ->.
    apply query_first_email in Hq as [Heq Hin].
    split; [congruence | exact Hin].
Qed.

(** Authentication succeeds on what the login route issues: the access
    token of a user of the store, presented bare or after the scheme
    prefix at a clock reading before its expiry, gives that user's row. *)
Lemma get_current_user_issued (s : string) (ttl t0 now : Z) (db : list User)
    (u : User) (scheme : string) :
  ttl <> 0 -> now < t0 + ttl ->
  get_user_by_email db (JStr s) = Some u ->
  scheme = "" \/ scheme = "Bearer " ->
  tokens_access.get_current_user SECRET_KEY
    (scheme ++
     tokens_access.create_access_token SECRET_KEY {["sub" := JStr s]}
       (Some (total_seconds ttl)) t0)
    db now = Returns u.
Proof.
  intros Httl Hnow Hu Hscheme.
  set (c := <["exp" := JInt (t0 + ttl)]> ({["sub" := JStr s]} : claims)).
  assert (tokens_access.create_access_token SECRET_KEY {["sub" := JStr s]}
            (Some (total_seconds ttl)) t0 = jws_sign c SECRET_KEY ALG) as Htok.
  { unfold tokens_access.create_access_token, jwt.encode, timedelta_seconds,
      total_seconds, float_truthy, py_int. simpl.
    rewrite (proj2 (Z.eqb_neq ttl 0) Httl), Z.quot_1_r. reflexivity. }
  rewrite Htok.
  assert (removeprefix (scheme ++ jws_sign c SECRET_KEY ALG) "Bearer "
          = jws_sign c SECRET_KEY ALG) as Hstrip.
  { destruct Hscheme as [-> | ->];
      [apply removeprefix_signed | apply removeprefix_app]. }
  assert (plain_claims c) as Hplain
    by apply plain_claims_insert_exp, plain_claims_sub.
  rewrite (get_current_user_verified _ _ _ c).
  - unfold c. rewrite lookup_insert_ne by discriminate.
    rewrite lookup_singleton_eq. unfold get_user_by_email in Hu.
    rewrite Hu. reflexivity.
  - rewrite Hstrip. apply jws_verify_sign.
    apply list_elem_of_In. left. reflexivity.
  - rewrite (validate_plain c now Hplain). unfold check_exp, c.
    rewrite lookup_insert_eq, expired_future by lia. reflexivity.
Qed.

End tokens_access_decode.

(** ** tokens_access.py: issuing access tokens *)

Section tokens_access_issue.
Context {lib : JWT}.
Variable SECRET_KEY : string.

Local Abbreviation ALG := tokens_access.ALGORITHM.

(** The payload [create_access_token] signs. *)
Lemma create_access_token_payload (data : claims) (expires_delta : option Q)
    (utcnow : Z) :
  tokens_access.create_access_token SECRET_KEY data expires_delta utcnow =
    jwt.encode
      (<["exp" := JInt (utcnow +
          match expires_delta with
          | Some x => if float_truthy x then py_int x else 15 * 60
          | None => 15 * 60
          end)]> data)
      SECRET_KEY ALG.
Proof.
  unfold tokens_access.create_access_token, timedelta_seconds,
    timedelta_minutes.
  destruct expires_delta as [x |]; [destruct (float_truthy x) |]; reflexivity.
Qed.

Lemma create_access_token_verify (data : claims) (expires_delta : option Q)
    (utcnow : Z) :
  exists e,
    jws_verify
      (tokens_access.create_access_token SECRET_KEY data expires_delta utcnow)
      SECRET_KEY [ALG] = Some (<["exp" := JInt e]> data)
    /\ e = utcnow +
         match expires_delta with
         | Some x => if float_truthy x then py_int x else 15 * 60
         | None => 15 * 60
         end.
Proof.
  eexists. split; [| reflexivity].
  rewrite create_access_token_payload. unfold jwt.encode.
  apply jws_verify_sign. apply list_elem_of_In. left. reflexivity.
Qed.

Lemma py_int_total_seconds (td : Z) : py_int (total_seconds td) = td.
Proof. unfold py_int, total_seconds. simpl. apply Z.quot_1_r. Qed.

Lemma float_truthy_total_seconds (td : Z) :
  td <> 0 -> float_truthy (total_seconds td) = true.
Proof.
  intros H. unfold float_truthy, total_seconds. simpl.
  apply negb_true_iff, Z.eqb_neq, H.
Qed.

(** C4, as the code has it. Called without a lifetime,
    [create_access_token] signs a payload whose [exp] is 15 minutes after
    the clock reading; the 30 minutes of [ACCESS_TOKEN_EXPIRE_MINUTES] are
    what the callers pass explicitly, and then [exp] is 30 minutes after
    it. Either way the rest of the payload is [data]. *)
Theorem create_access_token_default_lifetime (data : claims) (utcnow : Z) :
  jws_verify (tokens_access.create_access_token SECRET_KEY data None utcnow)
    SECRET_KEY [ALG]
  = Some (<["exp" := JInt (utcnow + 15 * 60)]> data)
  /\ jws_verify
       (tokens_access.create_access_token SECRET_KEY data
          (Some (total_seconds
             (timedelta_minutes tokens_access.ACCESS_TOKEN_EXPIRE_MINUTES)))
          utcnow)
       SECRET_KEY [ALG]
     = Some (<["exp" := JInt (utcnow + 30 * 60)]> data).
Proof.
  split.
  - destruct (create_access_token_verify data None utcnow) as (e & Hv & ->).
    exact Hv.
  - destruct (create_access_token_verify data
      (Some (total_seconds
         (timedelta_minutes tokens_access.ACCESS_TOKEN_EXPIRE_MINUTES)))
      utcnow) as (e & Hv & ->).
    exact Hv.
Qed.

(** C6. Round trip: for a subject [s] and a lifetime [ttl > 0], decoding
    at clock reading [now] the encoding of the claims with subject [s] and
    expiry [now + ttl], under the same secret, returns claims with that
    subject and that expiry. The same holds through the code's own pair.
    The token [create_access_token] issues at [now] for [s] and [ttl]
    decodes, at every reading before [now + ttl], to the claims with
    subject [s] and expiry [now + ttl] and nothing else; the login
    [get_login_from_refresh_token] reads from it is [s]; and past
    [now + ttl] it is refused, so the expiry it carries is that one. *)
Theorem decode_encode_round_trip (s : string) (ttl now : Z) :
  0 < ttl ->
  (exists c,
     jwt.decode
       (jwt.encode (<["sub" := JStr s]> (<["exp" := JInt (now + ttl)]> ∅))
          SECRET_KEY ALG)
       SECRET_KEY [ALG] now = Returns c
     /\ c !! "sub" = Some (JStr s)
     /\ c !! "exp" = Some (JInt (now + ttl)))
  /\ (exists c,
        jwt.decode
          (tokens_access.create_access_token SECRET_KEY {["sub" := JStr s]}
             (Some (total_seconds ttl)) now)
          SECRET_KEY [ALG] now = Returns c
        /\ c !! "sub" = Some (JStr s)
        /\ c !! "exp" = Some (JInt (now + ttl)))
  /\ (forall t, t < now + ttl ->
        jwt.decode
          (tokens_access.create_access_token SECRET_KEY {["sub" := JStr s]}
             (Some (total_seconds ttl)) now)
          SECRET_KEY [ALG] t
        = Returns (<["exp" := JInt (now + ttl)]> {["sub" := JStr s]}))
  /\ (forall t, now + ttl < t ->
        exists err,
          jwt.decode
            (tokens_access.create_access_token SECRET_KEY {["sub" := JStr s]}
               (Some (total_seconds ttl)) now)
            SECRET_KEY [ALG] t
          = Raises (JWTError err))
  /\ tokens_access.get_login_from_refresh_token SECRET_KEY
       (tokens_access.create_access_token SECRET_KEY {["sub" := JStr s]}
          (Some (total_seconds ttl)) now)
       now
     = Returns (Some (JStr s)).
Proof.
  intros Httl.
  assert (forall t, t < now + ttl ->
    jwt.decode
      (tokens_access.create_access_token SECRET_KEY {["sub" := JStr s]}
         (Some (total_seconds ttl)) now)
      SECRET_KEY [ALG] t
    = Returns (<["exp" := JInt (now + ttl)]> {["sub" := JStr s]})) as Hdec.
  { intros t Ht. rewrite create_access_token_payload.
    rewrite float_truthy_total_seconds by lia.
    rewrite py_int_total_seconds.
    rewrite jwt_decode_encode
      by apply plain_claims_insert_exp, plain_claims_sub.
    unfold check_exp. rewrite lookup_insert_eq.
    rewrite expired_future by lia. reflexivity. }
  split; [| split; [| split; [| split]]].
  - eexists. split; [| split].
    + rewrite jwt_decode_encode
        by apply plain_claims_insert_sub, plain_claims_insert_exp,
             plain_claims_empty.
      unfold check_exp.
      rewrite lookup_insert_ne by discriminate. rewrite lookup_insert_eq.
      rewrite expired_future by lia. reflexivity.
    + apply lookup_insert_eq.
    + rewrite lookup_insert_ne by discriminate. apply lookup_insert_eq.
  - eexists. split; [apply Hdec; lia |]. split.
    + rewrite lookup_insert_ne by discriminate. apply lookup_singleton_eq.
    + apply lookup_insert_eq.
  - exact Hdec.
  - intros t Ht.
    destruct (create_access_token_verify {["sub" := JStr s]}
      (Some (total_seconds ttl)) now) as (e & Hv & He).
    rewrite float_truthy_total_seconds, py_int_total_seconds in He by lia.
    apply (decode_expired _ _ _ t e _ Hv); [apply lookup_insert_eq | lia].
  - unfold tokens_access.get_login_from_refresh_token.
    rewrite Hdec by lia. run_body.
    unfold dict_get. rewrite lookup_insert_ne by discriminate.
    rewrite lookup_singleton_eq. reflexivity.
Qed.

(** A token issued with a negative lifetime is refused by [jwt.decode] at
    the very clock reading it was issued at. *)
Lemma create_access_token_negative (data : claims) (x : Q) (utcnow : Z) :
  py_int x < 0 ->
  exists err,
    jwt.decode
      (tokens_access.create_access_token SECRET_KEY data (Some x) utcnow)
      SECRET_KEY [ALG] utcnow = Raises (JWTError err).
Proof.
  intros Hneg.
  assert (float_truthy x = true) as Ht.
  { unfold float_truthy. apply negb_true_iff, Z.eqb_neq. intros H0.
    unfold py_int in Hneg. rewrite H0, Z.quot_0_l in Hneg by discriminate.
    lia. }
  destruct (create_access_token_verify data (Some x) utcnow) as (e & Hv & He).
  rewrite Ht in He.
  apply (decode_expired _ _ _ _ e _ Hv); [apply lookup_insert_eq | lia].
Qed.

(** C10, as the code has it. A lifetime that is falsy ([None], or a zero
    float) gives the very token an unspecified lifetime gives, whose [exp]
    is the default 15 minutes ahead, so it is not expired at issuance:
    [jwt.decode] at the issuing clock reading returns its payload (for a
    payload of subject only). Nothing more is promised for other
    lifetimes: a negative one is used as given. *)
Theorem create_access_token_falsy_lifetime
    (data : claims) (expires_delta : option Q) (utcnow : Z) :
  truthy expires_delta = false ->
  tokens_access.create_access_token SECRET_KEY data expires_delta utcnow
  = tokens_access.create_access_token SECRET_KEY data None utcnow
  /\ jws_verify
       (tokens_access.create_access_token SECRET_KEY data expires_delta utcnow)
       SECRET_KEY [ALG]
     = Some (<["exp" := JInt (utcnow + 15 * 60)]> data)
  /\ (plain_claims data ->
      jwt.decode
        (tokens_access.create_access_token SECRET_KEY data expires_delta utcnow)
        SECRET_KEY [ALG] utcnow
      = Returns (<["exp" := JInt (utcnow + 15 * 60)]> data)).
Proof.
  intros Hfalsy.
  assert (tokens_access.create_access_token SECRET_KEY data expires_delta utcnow
          = tokens_access.create_access_token SECRET_KEY data None utcnow)
    as Heq.
  { unfold tokens_access.create_access_token.
    destruct expires_delta as [x |]; [| reflexivity].
    simpl in Hfalsy. rewrite Hfalsy. reflexivity. }
  rewrite Heq.
  destruct (create_access_token_verify data None utcnow) as (e & Hv & ->).
  split; [reflexivity | split; [exact Hv |]].
  intros Hplain.
  apply (decode_unexpired _ _ _ _ (utcnow + 15 * 60) _ Hv).
  - apply plain_claims_insert_exp, Hplain.
  - apply lookup_insert_eq.
  - lia.
Qed.

End tokens_access_issue.

(** ** tokens_access.py: issuing refresh tokens *)

Lemma email_is_set_refresh_token (v : json) (token : string) (u : User) :
  email_is v (set_refresh_token token u) = email_is v u.
Proof. destruct v; reflexivity. Qed.

(** After the commit the row [first()] finds is the updated one. *)
Lemma query_first_commit (v : json) (token : string) (db : list User)
    (u : User) :
  query_first (email_is v) db = Some u ->
  query_first (email_is v) (commit_refresh_token (email_is v) token db)
  = Some (set_refresh_token token u).
Proof.
  unfold query_first. induction db as [| w db IH]; simpl; [discriminate |].
  destruct (email_is v w) eqn:Hw; simpl.
  - intros Hu. injection Hu as <-.
    rewrite email_is_set_refresh_token, Hw. reflexivity.
  - rewrite Hw. exact IH.
Qed.

(** The commit leaves the rows of the other addresses as they were. *)
Lemma query_first_commit_other (s s' token : string) (db : list User) :
  s' <> s ->
  query_first (email_is (JStr s'))
    (commit_refresh_token (email_is (JStr s)) token db)
  = query_first (email_is (JStr s')) db.
Proof.
  intros Hne. unfold query_first.
  induction db as [| w db IH]; simpl; [reflexivity |].
  destruct (String.eqb (email w) s) eqn:Hw; simpl.
  - apply String.eqb_eq in Hw.
    destruct (String.eqb (email w) s') eqn:Hw'; [| reflexivity].
    apply String.eqb_eq in Hw'. congruence.
  - rewrite IH. reflexivity.
Qed.

(** The commit changes no e-mail column. *)
Lemma commit_refresh_token_emails (p : User -> bool) (token : string)
    (db : list User) :
  map email (commit_refresh_token p token db) = map email db.
Proof.
  induction db as [| w db IH]; simpl; [reflexivity |].
  destruct (p w); simpl; [reflexivity | rewrite IH; reflexivity].
Qed.

(** Where e-mails are unique, after the commit every row of the address
    carries the token written. *)
Lemma commit_refresh_token_unique (s token : string) (db : list User)
    (w : User) :
  List.NoDup (map email db) ->
  In w (commit_refresh_token (email_is (JStr s)) token db) ->
  email w = s -> refresh_token w = Some token.
Proof.
  induction db as [| a db IH]; simpl; [intros _ [] |].
  intros Hnd Hin Hw. inversion Hnd as [| x l Hnotin Hnd']; subst x l.
  destruct (String.eqb (email a) s) eqn:Ha.
  - apply String.eqb_eq in Ha. destruct Hin as [<- | Hin]; [reflexivity |].
    exfalso. apply Hnotin. apply in_map_iff. exists w.
    split; [congruence | exact Hin].
  - apply String.eqb_neq in Ha. destruct Hin as [<- | Hin].
    + contradiction.
    + apply (IH Hnd' Hin Hw).
Qed.

Section tokens_access_refresh.
Context {lib : JWT}.
Variable SECRET_KEY : string.

Local Abbreviation ALG := tokens_access.ALGORITHM.

Lemma create_refresh_token_unfold (data : claims) (db : list User)
    (expires_delta : option Q) (utcnow : Z) :
  tokens_access.create_refresh_token SECRET_KEY data db expires_delta utcnow =
    match data !! "sub" with
    | None => Raises (KeyError "sub")
    | Some sub =>
        match query_first (email_is sub) db with
        | None => Raises (AttributeError "refresh_token")
        | Some _ =>
            Returns (refresh_token_for SECRET_KEY data expires_delta utcnow,
                     commit_refresh_token (email_is sub)
                       (refresh_token_for SECRET_KEY data expires_delta utcnow) db)
        end
    end.
Proof.
  unfold tokens_access.create_refresh_token, refresh_token_for,
    timedelta_seconds, timedelta_minutes.
  run_body.
  destruct (data !! "sub") as [sub |]; [| reflexivity].
  destruct (query_first (email_is sub) db); [| reflexivity].
  destruct expires_delta as [x |]; [destruct (float_truthy x) |]; reflexivity.
Qed.

(** When the user exists, the new token is returned and is the one stored
    on the user's row; the rows of other users are untouched. *)
Lemma create_refresh_token_present (data : claims) (s : string)
    (db : list User) (expires_delta : option Q) (utcnow : Z) (u : User) :
  data !! "sub" = Some (JStr s) ->
  get_user_by_email db (JStr s) = Some u ->
  exists token db',
    tokens_access.create_refresh_token SECRET_KEY data db expires_delta utcnow
    = Returns (token, db')
    /\ token = refresh_token_for SECRET_KEY data expires_delta utcnow
    /\ get_user_by_email db' (JStr s) = Some (set_refresh_token token u)
    /\ (forall s', s' <> s ->
          get_user_by_email db' (JStr s') = get_user_by_email db (JStr s')).
Proof.
  unfold get_user_by_email. intros Hsub Hu.
  rewrite create_refresh_token_unfold, Hsub, Hu.
  eexists _, _. split; [reflexivity |]. split; [reflexivity |]. split.
  - apply query_first_commit, Hu.
  - intros s' Hne. apply query_first_commit_other, Hne.
Qed.

(** C5, the failing case. When no user has the subject's e-mail,
    [create_refresh_token] does not fail with a user-not-found error: the
    row [first()] returns is [None], and assigning its [refresh_token]
    raises [AttributeError]. *)
Theorem create_refresh_token_absent_user (data : claims) (s : string)
    (db : list User) (expires_delta : option Q) (utcnow : Z) :
  data !! "sub" = Some (JStr s) ->
  get_user_by_email db (JStr s) = None ->
  tokens_access.create_refresh_token SECRET_KEY data db expires_delta utcnow
  = Raises (AttributeError "refresh_token").
Proof.
  unfold get_user_by_email. intros Hsub Hu.
  rewrite create_refresh_token_unfold, Hsub, Hu. reflexivity.
Qed.

(** Two refresh tokens for the same payload are the same text only when
    they carry the same expiry. *)
Lemma refresh_token_for_differs (data : claims) (delta1 delta2 : option Q)
    (t1 t2 : Z) :
  refresh_expiry delta1 t1 <> refresh_expiry delta2 t2 ->
  refresh_token_for SECRET_KEY data delta1 t1
  <> refresh_token_for SECRET_KEY data delta2 t2.
Proof.
  intros Hne Heq. apply Hne.
  assert (ALG ∈ [ALG]) as Halg by (apply list_elem_of_In; left; reflexivity).
  pose proof (jws_verify_sign
    (<["exp" := JInt (refresh_expiry delta1 t1)]> data) SECRET_KEY ALG [ALG]
    Halg) as H1.
  pose proof (jws_verify_sign
    (<["exp" := JInt (refresh_expiry delta2 t2)]> data) SECRET_KEY ALG [ALG]
    Halg) as H2.
  unfold refresh_token_for, jwt.encode in Heq. unfold refresh_expiry in H1, H2.
  rewrite Heq, H2 in H1. injection H1 as H1.
  apply (f_equal (fun c : claims => c !! "exp")) in H1.
  rewrite !lookup_insert_eq in H1. unfold refresh_expiry. congruence.
Qed.

(** C8. The row of a user has one [refresh_token] column, so it holds at
    most one token, and issuing writes that column. For a subject that is
    a user's address, two issuances in sequence both return; after the
    first the row the store returns for the subject holds the first token,
    and after the second it holds the second: that row is the user's row
    with the column overwritten and nothing else changed. When the two
    tokens carry different expiries they are different texts, and the
    first is then no longer what the store holds. Where e-mails are unique
    (the column is declared so), every row of that address holds the
    second token; the rows of other addresses are as before. *)
Theorem refresh_token_overwrite (data : claims) (s : string)
    (db : list User) (delta1 delta2 : option Q) (t1 t2 : Z) (u : User) :
  data !! "sub" = Some (JStr s) ->
  get_user_by_email db (JStr s) = Some u ->
  exists token1 db1 token2 db2,
    tokens_access.create_refresh_token SECRET_KEY data db delta1 t1
    = Returns (token1, db1)
    /\ tokens_access.create_refresh_token SECRET_KEY data db1 delta2 t2
       = Returns (token2, db2)
    /\ token1 = refresh_token_for SECRET_KEY data delta1 t1
    /\ token2 = refresh_token_for SECRET_KEY data delta2 t2
    /\ get_user_by_email db1 (JStr s) = Some (set_refresh_token token1 u)
    /\ get_user_by_email db2 (JStr s) = Some (set_refresh_token token2 u)
    /\ refresh_token (set_refresh_token token1 u) = Some token1
    /\ refresh_token (set_refresh_token token2 u) = Some token2
    /\ (refresh_expiry delta1 t1 <> refresh_expiry delta2 t2 ->
        token1 <> token2
        /\ refresh_token (set_refresh_token token2 u) <> Some token1)
    /\ (List.NoDup (map email db) ->
        forall w, In w db2 -> email w = s -> refresh_token w = Some token2)
    /\ (forall s', s' <> s ->
        get_user_by_email db2 (JStr s') = get_user_by_email db (JStr s')).
Proof.
  intros Hsub Hu.
  pose (token1 := refresh_token_for SECRET_KEY data delta1 t1).
  pose (token2 := refresh_token_for SECRET_KEY data delta2 t2).
  pose (db1 := commit_refresh_token (email_is (JStr s)) token1 db).
  pose (db2 := commit_refresh_token (email_is (JStr s)) token2 db1).
  assert (get_user_by_email db1 (JStr s) = Some (set_refresh_token token1 u))
    as Hu1 by (apply query_first_commit, Hu).
  assert (get_user_by_email db2 (JStr s) = Some (set_refresh_token token2 u))
    as Hu2 by (apply (query_first_commit _ token2 db1 _ Hu1)).
  exists token1, db1, token2, db2.
  split.
  { rewrite create_refresh_token_unfold, Hsub.
    unfold get_user_by_email in Hu. rewrite Hu. reflexivity. }
  split.
  { rewrite create_refresh_token_unfold, Hsub.
    unfold get_user_by_email in Hu1. rewrite Hu1. reflexivity. }
  split; [reflexivity |]. split; [reflexivity |].
  split; [exact Hu1 |]. split; [exact Hu2 |].
  split; [reflexivity |]. split; [reflexivity |].
  split.
  { intros Hne.
    pose proof (refresh_token_for_differs data delta1 delta2 t1 t2 Hne)
      as Hdiff.
    split; [exact Hdiff |].
    simpl. intros Heq. injection Heq as Heq. apply Hdiff. symmetry.
    exact Heq. }
  split.
  { intros Hnd w Hin Hw.
    apply (commit_refresh_token_unique s token2 db1 w); [| exact Hin | exact Hw].
    unfold db1. rewrite commit_refresh_token_emails. exact Hnd. }
  intros s' Hne. unfold db2, db1, get_user_by_email.
  rewrite !query_first_commit_other by exact Hne. reflexivity.
Qed.

(** Rotation: before its expiry, the refresh token issued for a user of
    the store is exchanged for an access token for that user's address,
    with the 30 minutes of [ACCESS_TOKEN_EXPIRE_MINUTES]. *)
Lemma create_access_token_from_refresh_token_issued (s : string)
    (ttl t0 now : Z) (db : list User) (u : User) :
  ttl <> 0 -> now < t0 + ttl ->
  get_user_by_email db (JStr s) = Some u ->
  tokens_access.create_access_token_from_refresh_token SECRET_KEY
    (refresh_token_for SECRET_KEY {["sub" := JStr s]}
       (Some (total_seconds ttl)) t0)
    db now
  = Returns
      {| tokens_access.access_token :=
           tokens_access.create_access_token SECRET_KEY
             {["sub" := JStr (email u)]}
             (Some (total_seconds (timedelta_minutes 30))) now;
         tokens_access.token_type := "bearer" |}.
Proof.
  intros Httl Hnow Hu.
  unfold tokens_access.create_access_token_from_refresh_token,
    tokens_access.get_login_from_refresh_token, refresh_token_for.
  unfold total_seconds at 1, float_truthy, py_int. simpl Qnum. simpl Qden.
  rewrite (proj2 (Z.eqb_neq ttl 0) Httl), Z.quot_1_r. simpl negb. cbv iota.
  rewrite jwt_decode_encode
    by apply plain_claims_insert_exp, plain_claims_sub.
  unfold check_exp. rewrite lookup_insert_eq.
  rewrite expired_future by lia. run_body.
  unfold dict_get. rewrite lookup_insert_ne by discriminate.
  rewrite lookup_singleton_eq, Hu. reflexivity.
Qed.

End tokens_access_refresh.

(** ** utils/token.py: e-mail verification tokens *)

Section token_props.
Context {lib : JWT}.
Variable SECRET_KEY : string.

Local Abbreviation ALG := token.ALGORITHM.

(** What [verify_verification_token] does on a token whose signature is
    valid and whose body parses to [c]. *)
Lemma verify_verified (email tok : string) (now : Z) (c : claims) :
  jws_verify tok SECRET_KEY [ALG] = Some c ->
  token.verify_verification_token SECRET_KEY email tok now =
    match validate_claims c now with
    | Some _ => Returns false
    | None =>
        match c !! "sub" with
        | None => Raises (KeyError "sub")
        | Some v => Returns (token.json_eq_str v email)
        end
    end.
Proof.
  intros Hv. unfold token.verify_verification_token.
  rewrite (decode_verified _ _ _ _ _ Hv).
  destruct (validate_claims c now); run_body; [reflexivity |].
  destruct (c !! "sub") as [v |]; [| reflexivity].
  destruct (token.json_eq_str v email); reflexivity.
Qed.




(** The issued verification token: its claims, and the answer of
    [verify_verification_token] on it at every address and clock reading. *)
Lemma generate_verification_token_verify (email : string) (t0 : Z) :
  jws_verify (token.generate_verification_token SECRET_KEY email t0)
    SECRET_KEY [ALG]
  = Some (<["sub" := JStr email]> (<["exp" := JInt (t0 + 60 * 60)]> ∅)).
Proof.
  unfold token.generate_verification_token, jwt.encode.
  apply jws_verify_sign. apply list_elem_of_In. left. reflexivity.
Qed.

Lemma verify_generated (email email' : string) (t0 now : Z) :
  token.verify_verification_token SECRET_KEY email'
    (token.generate_verification_token SECRET_KEY email t0) now
  = Returns (String.eqb email email' && negb (expired (t0 + 60 * 60) now)).
Proof.
  rewrite (verify_verified _ _ _ _ (generate_verification_token_verify _ _)).
  rewrite validate_plain
    by apply plain_claims_insert_sub, plain_claims_insert_exp,
         plain_claims_empty.
  unfold check_exp.
  rewrite lookup_insert_ne by discriminate. rewrite lookup_insert_eq.
  destruct (expired (t0 + 60 * 60) now); simpl.
  - rewrite andb_false_r. reflexivity.
  - rewrite lookup_insert_eq, andb_true_r. reflexivity.
Qed.



(** C9. [verify_verification_token] is not total as a boolean function:
    on a token whose signature is valid under the secret and whose claims
    pass the checks of [jwt.decode] (so it is not expired), but whose
    payload has no ["sub"] key, it raises [KeyError] instead of returning
    [False]; the handlers around [payload["sub"]] catch errors of the
    package only. *)
Theorem verify_verification_token_missing_subject
    (email tok : string) (c : claims) (now : Z) :
  jws_verify tok SECRET_KEY [ALG] = Some c ->
  validate_claims c now = None ->
  c !! "sub" = None ->
  token.verify_verification_token SECRET_KEY email tok now
  = Raises (KeyError "sub").
Proof.
  intros Hv Hval Hsub.
  rewrite (verify_verified _ _ _ _ Hv), Hval, Hsub. reflexivity.
Qed.

(** Such a token exists for every implementation of the package: the
    encoding of a payload that holds an expiry in the future and nothing
    else. *)
Lemma verify_verification_token_raises (email : string) (e now : Z) :
  now < e ->
  token.verify_verification_token SECRET_KEY email
    (jwt.encode {["exp" := JInt e]} SECRET_KEY ALG) now
  = Raises (KeyError "sub").
Proof.
  intros Hlt.
  assert (plain_claims {["exp" := JInt e]}) as Hplain
    by apply plain_claims_insert_exp, plain_claims_empty.
  assert (jws_verify (jwt.encode {["exp" := JInt e]} SECRET_KEY ALG)
            SECRET_KEY [ALG] = Some {["exp" := JInt e]}) as Hv.
  { unfold jwt.encode. apply jws_verify_sign.
    apply list_elem_of_In. left. reflexivity. }
  rewrite (verify_verified _ _ _ _ Hv), (validate_plain _ now Hplain).
  unfold check_exp. rewrite lookup_singleton_eq, (expired_future e now Hlt).
  rewrite lookup_singleton_ne by discriminate. reflexivity.
Qed.

End token_props.

(** ** tokens_access.py: rotation *)

Section tokens_access_rotation.
Context {lib : JWT}.
Variable SECRET_KEY : string.

Local Abbreviation ALG := tokens_access.ALGORITHM.

Local Abbreviation invalid_refresh_token :=
  (HTTPException 401 "Refresh token is invalid" []).

Local Abbreviation user_not_found :=
  (HTTPException 401 "User not found" []).

(** The access token rotation and login issue for an address. *)
Local Abbreviation access_token_for s now :=
  (tokens_access.create_access_token SECRET_KEY {["sub" := JStr s]}
     (Some (total_seconds
        (timedelta_minutes tokens_access.ACCESS_TOKEN_EXPIRE_MINUTES)))
     now).


Lemma rotation_verified (token : string) (db : list User) (now : Z)
    (c : claims) :
  jws_verify token SECRET_KEY [ALG] = Some c ->
  validate_claims c now = None ->
  tokens_access.create_access_token_from_refresh_token SECRET_KEY token db now
  = match dict_get c "sub" with
    | None => Raises invalid_refresh_token
    | Some login =>
        match get_user_by_email db login with
        | None => Raises user_not_found
        | Some user =>
            Returns
              {| tokens_access.access_token :=
                   access_token_for (email user) now;
                 tokens_access.token_type := "bearer" |}
        end
    end.
Proof.
  intros Hv Hval. unfold tokens_access.create_access_token_from_refresh_token.
  rewrite (get_login_verified _ _ _ _ Hv), Hval. run_body.
  destruct (dict_get c "sub") as [login |]; reflexivity.
Qed.

Lemma access_token_for_verify (s : string) (now : Z) :
  jws_verify (access_token_for s now) SECRET_KEY [ALG]
  = Some (<["exp" := JInt (now + 30 * 60)]> {["sub" := JStr s]}).
Proof.
  destruct (create_access_token_verify SECRET_KEY {["sub" := JStr s]}
    (Some (total_seconds
       (timedelta_minutes tokens_access.ACCESS_TOKEN_EXPIRE_MINUTES))) now)
    as (e & Hv & ->).
  exact Hv.
Qed.

Lemma refresh_token_for_verify (data : claims) (ttl t0 : Z) :
  ttl <> 0 ->
  jws_verify (refresh_token_for SECRET_KEY data (Some (total_seconds ttl)) t0)
    SECRET_KEY [ALG]
  = Some (<["exp" := JInt (t0 + ttl)]> data).
Proof.
  intros Httl. unfold refresh_token_for, jwt.encode.
  rewrite float_truthy_total_seconds by exact Httl.
  rewrite py_int_total_seconds.
  apply jws_verify_sign. apply list_elem_of_In. left. reflexivity.
Qed.

Lemma validate_subject_expiry (s : string) (e now : Z) :
  now < e ->
  validate_claims (<["exp" := JInt e]> {["sub" := JStr s]}) now = None.
Proof.
  intros Hlt.
  rewrite validate_plain by apply plain_claims_insert_exp, plain_claims_sub.
  unfold check_exp. rewrite lookup_insert_eq, (expired_future e now Hlt).
  reflexivity.
Qed.

Lemma dict_get_subject_expiry (s : string) (e : Z) :
  dict_get (<["exp" := JInt e]> {["sub" := JStr s]}) "sub" = Some (JStr s).
Proof.
  unfold dict_get. rewrite lookup_insert_ne by discriminate.
  rewrite lookup_singleton_eq. reflexivity.
Qed.

(** X1. Rotation on a token whose signature is valid, whose claims pass
    the checks of [jwt.decode] and whose subject is the address of a user
    of the store: the answer is a bearer access token whose payload is
    that subject with an expiry 30 minutes after the clock reading. *)
Theorem rotation_issues_access_token (token s : string) (c : claims)
    (db : list User) (now : Z) (u : User) :
  jws_verify token SECRET_KEY [ALG] = Some c ->
  validate_claims c now = None ->
  c !! "sub" = Some (JStr s) ->
  get_user_by_email db (JStr s) = Some u ->
  exists access,
    tokens_access.create_access_token_from_refresh_token SECRET_KEY token
      db now
    = Returns {| tokens_access.access_token := access;
                 tokens_access.token_type := "bearer" |}
    /\ jws_verify access SECRET_KEY [ALG]
       = Some (<["exp" := JInt (now + 30 * 60)]> {["sub" := JStr s]}).
Proof.
  intros Hv Hval Hsub Hu.
  rewrite (rotation_verified _ _ _ _ Hv Hval).
  unfold dict_get. rewrite Hsub, Hu.
  destruct (query_first_email _ _ _ Hu) as [Heq _].
  injection Heq as ->.
  eexists. split; [reflexivity | apply access_token_for_verify].
Qed.


(** X3. Rotation does not look at the refresh token stored on the user's
    row. After a second refresh token has been issued for a subject and
    has replaced the first on the row, the first one, while it has not
    expired, is still exchanged for an access token. *)
Theorem superseded_refresh_token_rotates (s : string) (db : list User)
    (ttl1 ttl2 t1 t2 now : Z) (u : User) :
  ttl1 <> 0 -> now < t1 + ttl1 ->
  get_user_by_email db (JStr s) = Some u ->
  exists token1 db1 token2 db2 access,
    tokens_access.create_refresh_token SECRET_KEY {["sub" := JStr s]} db
      (Some (total_seconds ttl1)) t1 = Returns (token1, db1)
    /\ tokens_access.create_refresh_token SECRET_KEY {["sub" := JStr s]} db1
         (Some (total_seconds ttl2)) t2 = Returns (token2, db2)
    /\ (forall u2, get_user_by_email db2 (JStr s) = Some u2 ->
          refresh_token u2 = Some token2)
    /\ tokens_access.create_access_token_from_refresh_token SECRET_KEY
         token1 db2 now
       = Returns {| tokens_access.access_token := access;
                    tokens_access.token_type := "bearer" |}.
Proof.
  intros Httl Hnow Hu.
  assert (({["sub" := JStr s]} : claims) !! "sub" = Some (JStr s)) as Hsub
    by apply lookup_singleton_eq.
  destruct (create_refresh_token_present SECRET_KEY _ s db
    (Some (total_seconds ttl1)) t1 u Hsub Hu)
    as (token1 & db1 & H1 & Htok1 & Hu1 & _).
  destruct (create_refresh_token_present SECRET_KEY _ s db1
    (Some (total_seconds ttl2)) t2 _ Hsub Hu1)
    as (token2 & db2 & H2 & _ & Hu2 & _).
  eexists token1, db1, token2, db2, _.
  split; [exact H1 |]. split; [exact H2 |]. split.
  - intros u2 Hq. rewrite Hu2 in Hq. injection Hq as <-. reflexivity.
  - rewrite (rotation_verified _ _ _ (<["exp" := JInt (t1 + ttl1)]>
      {["sub" := JStr s]})).
    + rewrite dict_get_subject_expiry, Hu2. reflexivity.
    + rewrite Htok1. apply refresh_token_for_verify, Httl.
    + apply validate_subject_expiry, Hnow.
Qed.

(** X4. The access token rotation returns authenticates: presented to
    [get_current_user], bare or after the scheme prefix, at any clock
    reading before its expiry, it gives the row of the user the refresh
    token was issued for. *)
Theorem rotated_access_token_authenticates (token s : string) (c : claims)
    (db : list User) (now now' : Z) (u : User) :
  jws_verify token SECRET_KEY [ALG] = Some c ->
  validate_claims c now = None ->
  c !! "sub" = Some (JStr s) ->
  get_user_by_email db (JStr s) = Some u ->
  now' < now + 30 * 60 ->
  exists resp,
    tokens_access.create_access_token_from_refresh_token SECRET_KEY token
      db now = Returns resp
    /\ tokens_access.get_current_user SECRET_KEY
         (tokens_access.access_token resp) db now' = Returns u
    /\ tokens_access.get_current_user SECRET_KEY
         ("Bearer " ++ tokens_access.access_token resp) db now' = Returns u.
Proof.
  intros Hv Hval Hsub Hu Hnow.
  rewrite (rotation_verified _ _ _ _ Hv Hval).
  unfold dict_get. rewrite Hsub, Hu.
  destruct (query_first_email _ _ _ Hu) as [Heq _].
  injection Heq as ->.
  eexists. split; [reflexivity |]. simpl. split.
  - apply (get_current_user_issued SECRET_KEY (email u)
      (timedelta_minutes tokens_access.ACCESS_TOKEN_EXPIRE_MINUTES)
      now now' db u ""); [discriminate | exact Hnow | exact Hu | left; reflexivity].
  - apply (get_current_user_issued SECRET_KEY (email u)
      (timedelta_minutes tokens_access.ACCESS_TOKEN_EXPIRE_MINUTES)
      now now' db u "Bearer ");
      [discriminate | exact Hnow | exact Hu | right; reflexivity].
Qed.

End tokens_access_rotation.

(** ** tokens_access.py: more on authentication and issuance *)

Section tokens_access_more.
Context {lib : JWT}.
Variable SECRET_KEY : string.

Local Abbreviation ALG := tokens_access.ALGORITHM.
Local Abbreviation unauthorized := tokens_access.credentials_exception.


Lemma get_current_user_invalid (token : string) (db : list User) (now : Z)
    (c : claims) :
  jws_verify (removeprefix token "Bearer ") SECRET_KEY [ALG] = Some c ->
  validate_claims c now <> None ->
  tokens_access.get_current_user SECRET_KEY token db now
  = Raises unauthorized.
Proof.
  intros Hv Hval. unfold tokens_access.get_current_user.
  rewrite (decode_verified _ _ _ _ _ Hv).
  destruct (validate_claims c now); [reflexivity | congruence].
Qed.


(** An access token for an address no user of the store has is answered
    401, whatever its lifetime and the clock reading. *)
Lemma access_token_unknown_user (s : string) (expires_delta : option Q)
    (t0 now : Z) (db : list User) :
  get_user_by_email db (JStr s) = None ->
  tokens_access.get_current_user SECRET_KEY
    (tokens_access.create_access_token SECRET_KEY {["sub" := JStr s]}
       expires_delta t0)
    db now = Raises unauthorized.
Proof.
  intros Hnone.
  destruct (create_access_token_verify SECRET_KEY {["sub" := JStr s]}
    expires_delta t0) as (e & Hv & _).
  assert (jws_verify
    (removeprefix
       (tokens_access.create_access_token SECRET_KEY {["sub" := JStr s]}
          expires_delta t0) "Bearer ")
    SECRET_KEY [ALG] = Some (<["exp" := JInt e]> {["sub" := JStr s]}))
    as Hv'.
  { rewrite create_access_token_payload in *. unfold jwt.encode in *.
    rewrite removeprefix_signed. exact Hv. }
  destruct (validate_claims (<["exp" := JInt e]>
    ({["sub" := JStr s]} : claims)) now) as [err |] eqn:Hval.
  - apply (get_current_user_invalid _ _ _ _ Hv'). congruence.
  - rewrite (get_current_user_verified _ _ _ _ _ Hv' Hval).
    rewrite lookup_insert_ne by discriminate.
    rewrite lookup_singleton_eq.
    unfold get_user_by_email in Hnone. rewrite Hnone. reflexivity.
Qed.

(** X6. The life of an access token. Issued at [t0] with a lifetime of
    [ttl] seconds for the address of a user, it authenticates as that user
    (bare or after the scheme prefix) at every clock reading before
    [t0 + ttl], and is answered 401 at every reading after it. It is
    answered 401 as well, expired or not, by a store in which no user has
    the address any more. *)
Theorem access_token_lifetime (s : string) (ttl t0 : Z) (db : list User)
    (u : User) :
  ttl <> 0 ->
  get_user_by_email db (JStr s) = Some u ->
  (forall now scheme, now < t0 + ttl ->
     scheme = "" \/ scheme = "Bearer " ->
     tokens_access.get_current_user SECRET_KEY
       (scheme ++
        tokens_access.create_access_token SECRET_KEY {["sub" := JStr s]}
          (Some (total_seconds ttl)) t0)
       db now = Returns u)
  /\ (forall now, t0 + ttl < now ->
        tokens_access.get_current_user SECRET_KEY
          (tokens_access.create_access_token SECRET_KEY {["sub" := JStr s]}
             (Some (total_seconds ttl)) t0)
          db now = Raises unauthorized)
  /\ (forall db' now, get_user_by_email db' (JStr s) = None ->
        tokens_access.get_current_user SECRET_KEY
          (tokens_access.create_access_token SECRET_KEY {["sub" := JStr s]}
             (Some (total_seconds ttl)) t0)
          db' now = Raises unauthorized).
Proof.
  intros Httl Hu.
  assert (jws_verify
    (removeprefix
       (tokens_access.create_access_token SECRET_KEY {["sub" := JStr s]}
          (Some (total_seconds ttl)) t0) "Bearer ")
    SECRET_KEY [ALG]
    = Some (<["exp" := JInt (t0 + ttl)]> {["sub" := JStr s]})) as Hv.
  { destruct (create_access_token_verify SECRET_KEY {["sub" := JStr s]}
      (Some (total_seconds ttl)) t0) as (e & Hv & ->).
    rewrite float_truthy_total_seconds, py_int_total_seconds in Hv
      by exact Httl.
    rewrite create_access_token_payload. unfold jwt.encode.
    rewrite removeprefix_signed. rewrite create_access_token_payload in Hv.
    exact Hv. }
  split; [| split].
  - intros now scheme Hnow Hscheme.
    apply get_current_user_issued; assumption.
  - intros now Hnow.
    apply (get_current_user_invalid _ _ _ _ Hv).
    apply (validate_expired _ (t0 + ttl) now);
      [apply lookup_insert_eq | apply expired_past, Hnow].
  - intros db' now Hnone. apply access_token_unknown_user, Hnone.
Qed.

Lemma commit_refresh_token_split (v : json) (tok : string) (db : list User)
    (u : User) :
  query_first (email_is v) db = Some u ->
  exists l1 l2,
    db = (l1 ++ u :: l2)%list
    /\ commit_refresh_token (email_is v) tok db
       = (l1 ++ set_refresh_token tok u :: l2)%list
    /\ Forall (fun w => email_is v w = false) l1.
Proof.
  unfold query_first. induction db as [| w db IH]; simpl; [discriminate |].
  destruct (email_is v w) eqn:Hw.
  - intros Hq. injection Hq as <-. exists [], db.
    split; [reflexivity | split; [reflexivity | constructor]].
  - intros Hq. destruct (IH Hq) as (l1 & l2 & -> & Hc & Hall).
    exists (w :: l1), l2. simpl. rewrite Hc.
    split; [reflexivity | split; [reflexivity |]].
    constructor; assumption.
Qed.

(** X7. What issuing a refresh token changes in the store. When
    [create_refresh_token] returns, exactly one row was rewritten: the
    first row whose e-mail is the subject, with its [refresh_token] set to
    the token returned and every other column as before. All other rows,
    and the order of the rows, are as they were. *)
Theorem create_refresh_token_frame (data : claims) (db db' : list User)
    (expires_delta : option Q) (utcnow : Z) (tok : string) :
  tokens_access.create_refresh_token SECRET_KEY data db expires_delta utcnow
  = Returns (tok, db') ->
  exists l1 u l2,
    db = (l1 ++ u :: l2)%list
    /\ db' = (l1 ++ set_refresh_token tok u :: l2)%list
    /\ data !! "sub" = Some (JStr (email u))
    /\ Forall (fun w => email w <> email u) l1
    /\ id (set_refresh_token tok u) = id u
    /\ email (set_refresh_token tok u) = email u
    /\ hashed_password (set_refresh_token tok u) = hashed_password u
    /\ is_verified (set_refresh_token tok u) = is_verified u
    /\ avatar_url (set_refresh_token tok u) = avatar_url u.
Proof.
  rewrite create_refresh_token_unfold.
  destruct (data !! "sub") as [sub |] eqn:Hsub; [| discriminate].
  destruct (query_first (email_is sub) db) as [u |] eqn:Hq; [| discriminate].
  intros Hret. injection Hret as <- <-.
  destruct (commit_refresh_token_split sub
    (refresh_token_for SECRET_KEY data expires_delta utcnow) db u Hq)
    as (l1 & l2 & Hdb & Hdb' & Hall).
  destruct (query_first_email _ _ _ Hq) as [-> _].
  exists l1, u, l2.
  split; [exact Hdb |]. split; [exact Hdb' |]. split; [reflexivity |].
  split; [| repeat split].
  eapply Forall_impl; [| exact Hall].
  intros w Hw Heq. simpl in Hw. apply String.eqb_neq in Hw. contradiction.
Qed.

(** X8. The tokens carry no purpose, and both modules sign with the same
    key and algorithm, so the kinds are interchangeable while unexpired:
    the e-mail verification token of an address authenticates as the user
    of that address, and an access token for an address passes
    [verify_verification_token] for it. (One implementation of the package
    stands for both modules.) *)
Theorem token_kinds_interchangeable (s : string) (t0 now : Z) :
  (forall db u, now < t0 + 60 * 60 ->
     get_user_by_email db (JStr s) = Some u ->
     tokens_access.get_current_user SECRET_KEY
       (token.generate_verification_token SECRET_KEY s t0) db now
     = Returns u)
  /\ (forall ttl, ttl <> 0 -> now < t0 + ttl ->
        token.verify_verification_token SECRET_KEY s
          (tokens_access.create_access_token SECRET_KEY {["sub" := JStr s]}
             (Some (total_seconds ttl)) t0)
          now
        = Returns true).
Proof.
  split.
  - intros db u Hnow Hu.
    set (c := <["sub" := JStr s]> (<["exp" := JInt (t0 + 60 * 60)]> ∅)
              : claims).
    assert (plain_claims c) as Hplain
      by apply plain_claims_insert_sub, plain_claims_insert_exp,
           plain_claims_empty.
    rewrite (get_current_user_verified _ _ _ _ c).
    + unfold c. rewrite lookup_insert_eq.
      unfold get_user_by_email in Hu. rewrite Hu. reflexivity.
    + unfold token.generate_verification_token, jwt.encode.
      rewrite removeprefix_signed. apply jws_verify_sign.
      apply list_elem_of_In. left. reflexivity.
    + rewrite (validate_plain c now Hplain). unfold check_exp, c.
      rewrite lookup_insert_ne by discriminate.
      rewrite lookup_insert_eq, expired_future by exact Hnow. reflexivity.
  - intros ttl Httl Hnow.
    set (c := <["exp" := JInt (t0 + ttl)]> ({["sub" := JStr s]} : claims)).
    assert (jws_verify
      (tokens_access.create_access_token SECRET_KEY {["sub" := JStr s]}
         (Some (total_seconds ttl)) t0) SECRET_KEY [token.ALGORITHM]
      = Some c) as Hv.
    { destruct (create_access_token_verify SECRET_KEY {["sub" := JStr s]}
        (Some (total_seconds ttl)) t0) as (e & Hv & ->).
      rewrite float_truthy_total_seconds, py_int_total_seconds in Hv
        by exact Httl.
      exact Hv. }
    rewrite (verify_verified _ _ _ _ _ Hv).
    rewrite validate_plain
      by apply plain_claims_insert_exp, plain_claims_sub.
    unfold check_exp, c. rewrite lookup_insert_eq.
    rewrite expired_future by exact Hnow.
    rewrite lookup_insert_ne by discriminate.
    rewrite lookup_singleton_eq. simpl. rewrite String.eqb_refl. reflexivity.
Qed.

End tokens_access_more.

(** ** main.py: confirming an address *)

Lemma email_is_set_is_verified (v : json) (u : User) :
  email_is v (set_is_verified u) = email_is v u.
Proof. destruct v; reflexivity. Qed.

Lemma query_first_commit_row (v : json) (f : User -> User) (db : list User)
    (u : User) :
  (forall w, email_is v (f w) = email_is v w) ->
  query_first (email_is v) db = Some u ->
  query_first (email_is v) (commit_row (email_is v) f db) = Some (f u).
Proof.
  intros Hf. unfold query_first.
  induction db as [| w db IH]; simpl; [discriminate |].
  destruct (email_is v w) eqn:Hw; simpl.
  - intros Hu. injection Hu as <-. rewrite Hf, Hw. reflexivity.
  - rewrite Hw. exact IH.
Qed.

Lemma query_first_commit_row_other (s s' : string) (f : User -> User)
    (db : list User) :
  (forall w, email (f w) = email w) -> s' <> s ->
  query_first (email_is (JStr s')) (commit_row (email_is (JStr s)) f db)
  = query_first (email_is (JStr s')) db.
Proof.
  intros Hf Hne. unfold query_first.
  induction db as [| w db IH]; simpl; [reflexivity |].
  destruct (String.eqb (email w) s) eqn:Hw; simpl.
  - rewrite Hf. apply String.eqb_eq in Hw.
    destruct (String.eqb (email w) s') eqn:Hw'; [| reflexivity].
    apply String.eqb_eq in Hw'. congruence.
  - rewrite IH. reflexivity.
Qed.

Lemma commit_row_idempotent (p : User -> bool) (f : User -> User)
    (db : list User) :
  (forall w, p (f w) = p w) -> (forall w, f (f w) = f w) ->
  commit_row p f (commit_row p f db) = commit_row p f db.
Proof.
  intros Hp Hf. induction db as [| w db IH]; simpl; [reflexivity |].
  destruct (p w) eqn:Hw; simpl.
  - rewrite Hp, Hw, Hf. reflexivity.
  - rewrite Hw, IH. reflexivity.
Qed.

Section main_confirm_email.
Context {lib : JWT}.
Variable SECRET_KEY : string.

Local Abbreviation ALG := token.ALGORITHM.

Local Abbreviation bad_request :=
  (HTTPException 400 "Invalid token or user not found" []).

Local Abbreviation confirmed :=
  ({["message" := JStr "Email has been confirmed"]} : claims).

Lemma confirm_email_known (tok e : string) (db : list User) (now : Z)
    (u : User) :
  get_user_by_email db (JStr e) = Some u ->
  main.confirm_email SECRET_KEY tok e db now =
    match token.verify_verification_token SECRET_KEY e tok now with
    | Returns true =>
        Returns (confirmed, commit_row (email_is (JStr e)) set_is_verified db)
    | Returns false => Raises bad_request
    | Raises x => Raises x
    end.
Proof.
  intros Hu. unfold main.confirm_email. rewrite Hu.
  destruct (token.verify_verification_token SECRET_KEY e tok now)
    as [[|] | x]; reflexivity.
Qed.

(** X9. Confirming with the verification token issued for the address of
    a user of the store, before the token expires, answers
    [Email has been confirmed] and commits a store in which that user's
    row has [is_verified] set and nothing else changed; the rows of the
    other addresses are found as before. *)
Theorem confirm_email_marks_verified (e : string) (t0 now : Z)
    (db : list User) (u : User) :
  now < t0 + 60 * 60 ->
  get_user_by_email db (JStr e) = Some u ->
  exists db',
    main.confirm_email SECRET_KEY
      (token.generate_verification_token SECRET_KEY e t0) e db now
    = Returns (confirmed, db')
    /\ get_user_by_email db' (JStr e) = Some (set_is_verified u)
    /\ (forall e', e' <> e ->
          get_user_by_email db' (JStr e') = get_user_by_email db (JStr e')).
Proof.
  intros Hnow Hu.
  rewrite (confirm_email_known _ _ _ _ _ Hu), verify_generated.
  rewrite String.eqb_refl, expired_future by exact Hnow. simpl.
  eexists. split; [reflexivity |]. split.
  - apply query_first_commit_row;
      [intros w; apply email_is_set_is_verified | exact Hu].
  - intros e' Hne. apply query_first_commit_row_other;
      [reflexivity | exact Hne].
Qed.


(** X11. A verification token is not consumed by its use. While it has
    not expired, confirming again with the same token is answered
    [Email has been confirmed] again, and commits the store the first
    confirmation left. *)
Theorem confirm_email_repeatable (e : string) (t0 now1 now2 : Z)
    (db : list User) (u : User) :
  now1 < t0 + 60 * 60 -> now2 < t0 + 60 * 60 ->
  get_user_by_email db (JStr e) = Some u ->
  exists db1,
    main.confirm_email SECRET_KEY
      (token.generate_verification_token SECRET_KEY e t0) e db now1
    = Returns (confirmed, db1)
    /\ main.confirm_email SECRET_KEY
         (token.generate_verification_token SECRET_KEY e t0) e db1 now2
       = Returns (confirmed, db1).
Proof.
  intros Hnow1 Hnow2 Hu.
  assert (get_user_by_email
            (commit_row (email_is (JStr e)) set_is_verified db) (JStr e)
          = Some (set_is_verified u)) as Hu1.
  { apply query_first_commit_row;
      [intros w; apply email_is_set_is_verified | exact Hu]. }
  exists (commit_row (email_is (JStr e)) set_is_verified db). split.
  - rewrite (confirm_email_known _ _ _ _ _ Hu), verify_generated.
    rewrite String.eqb_refl, expired_future by exact Hnow1. reflexivity.
  - rewrite (confirm_email_known _ _ _ _ _ Hu1), verify_generated.
    rewrite String.eqb_refl, expired_future by exact Hnow2. simpl.
    rewrite commit_row_idempotent;
      [reflexivity | intros w; apply email_is_set_is_verified | reflexivity].
Qed.

End main_confirm_email.

(** ** database/users.py: creating and authenticating users *)

Lemma query_first_app_None (p : User -> bool) (db : list User) (u : User) :
  query_first p db = None ->
  query_first p (db ++ [u])%list = if p u then Some u else None.
Proof.
  unfold query_first. induction db as [| w db IH]; simpl; [reflexivity |].
  destruct (p w); [discriminate | exact IH].
Qed.

Lemma query_first_app_Some (p : User -> bool) (db l : list User) (u : User) :
  query_first p db = Some u -> query_first p (db ++ l)%list = Some u.
Proof.
  unfold query_first. induction db as [| w db IH]; simpl; [discriminate |].
  destruct (p w); [intros H; exact H | exact IH].
Qed.

Section users_props.
Context {pwd_context : CryptContext}.

(** X12. [authenticate_user] returns a user exactly when the store's row
    for the address verifies the password; the user it returns is that
    row, so its e-mail is the address given. An unknown address and a
    password that does not verify both give [None]. *)
Theorem authenticate_user_sound (db : list User) (e password : string) :
  (forall u,
     users.authenticate_user db e password = Done (Some u) <->
     get_user_by_email db (JStr e) = Some u
     /\ pwd_verify password (hashed_password u) = Some true)
  /\ (forall u, users.authenticate_user db e password = Done (Some u) ->
        email u = e /\ In u db)
  /\ (users.authenticate_user db e password = Done None <->
      get_user_by_email db (JStr e) = None
      \/ exists u, get_user_by_email db (JStr e) = Some u
                   /\ pwd_verify password (hashed_password u) = Some false).
Proof.
  assert (forall u,
    users.authenticate_user db e password = Done (Some u) <->
    get_user_by_email db (JStr e) = Some u
    /\ pwd_verify password (hashed_password u) = Some true) as Hiff.
  { intros u. unfold users.authenticate_user.
    destruct (get_user_by_email db (JStr e)) as [w |].
    - destruct (pwd_verify password (hashed_password w)) as [[|] |] eqn:Hp.
      + split.
        * intros H. injection H as <-. split; [reflexivity | exact Hp].
        * intros [H _]. injection H as <-. reflexivity.
      + split; [discriminate |]. intros [H Hp']. injection H as <-.
        congruence.
      + split; [discriminate |]. intros [H Hp']. injection H as <-.
        congruence.
    - split; [discriminate | intros [H _]; discriminate]. }
  split; [exact Hiff |]. split.
  - intros u Hu. apply Hiff in Hu as [Hq _].
    destruct (query_first_email _ _ _ Hq) as [Heq Hin].
    split; [congruence | exact Hin].
  - unfold users.authenticate_user.
    destruct (get_user_by_email db (JStr e)) as [w |].
    + destruct (pwd_verify password (hashed_password w)) as [[|] |] eqn:Hp.
      * split; [discriminate |].
        intros [H | (u & H & Hp')]; [discriminate |].
        injection H as <-. congruence.
      * split; [| reflexivity]. intros _. right. eauto.
      * split; [discriminate |].
        intros [H | (u & H & Hp')]; [discriminate |].
        injection H as <-. congruence.
    + split; [left; reflexivity | reflexivity].
Qed.

(** X13. A user created with a password authenticates with it. When
    [create_user] succeeds, the address was free, the new row is
    unverified and has no refresh token, [authenticate_user] on the new
    store with the same address and password returns the new row, and for
    every other address it answers as on the old store. On an address
    already in the store the commit raises [IntegrityError]. *)
Theorem create_user_then_authenticate (db db' : list User)
    (e password salt : string) (new_id : Z) (u : User) :
  users.create_user db e password salt new_id = Done (u, db') ->
  get_user_by_email db (JStr e) = None
  /\ db' = (db ++ [u])%list
  /\ email u = e /\ id u = new_id
  /\ is_verified u = false /\ refresh_token u = None
  /\ users.authenticate_user db' e password = Done (Some u)
  /\ (forall e' password', e' <> e ->
        users.authenticate_user db' e' password'
        = users.authenticate_user db e' password').
Proof.
  unfold users.create_user.
  destruct (pwd_hash password salt) as [hashed |] eqn:Hhash;
    [| discriminate].
  destruct (get_user_by_email db (JStr e)) as [w |] eqn:Hfree;
    [discriminate |].
  intros H. injection H as <- <-.
  split; [reflexivity |]. split; [reflexivity |].
  split; [reflexivity |]. split; [reflexivity |].
  split; [reflexivity |]. split; [reflexivity |].
  split.
  - unfold users.authenticate_user, get_user_by_email.
    rewrite (query_first_app_None _ _ _ Hfree). simpl.
    rewrite String.eqb_refl. simpl.
    rewrite (pwd_verify_hash _ _ _ Hhash). reflexivity.
  - intros e' password' Hne.
    unfold users.authenticate_user, get_user_by_email.
    destruct (query_first (email_is (JStr e')) db) as [w |] eqn:Hq.
    + rewrite (query_first_app_Some _ _ _ _ Hq). reflexivity.
    + rewrite (query_first_app_None _ _ _ Hq). simpl.
      destruct (String.eqb e e') eqn:E; [| reflexivity].
      apply String.eqb_eq in E. congruence.
Qed.

Lemma create_user_taken (db : list User) (e password salt : string)
    (new_id : Z) (w : User) (hashed : string) :
  pwd_hash password salt = Some hashed ->
  get_user_by_email db (JStr e) = Some w ->
  users.create_user db e password salt new_id = Failed IntegrityError.
Proof.
  intros Hh H. unfold users.create_user. rewrite Hh, H. reflexivity.
Qed.

(** A password passlib refuses to hash stops [create_user] before any row
    is added. *)
Lemma create_user_refused (db : list User) (e password salt : string)
    (new_id : Z) :
  pwd_hash password salt = None ->
  users.create_user db e password salt new_id = Failed PasslibError.
Proof. intros Hh. unfold users.create_user. rewrite Hh. reflexivity. Qed.

End users_props.

(** ** main.py: logging in *)

Section main_login.
Context {lib : JWT} {pwd_context : CryptContext}.
Variable SECRET_KEY : string.

Local Abbreviation ALG := tokens_access.ALGORITHM.

Local Abbreviation incorrect_login :=
  (Exn (HTTPException 401 "Incorrect email or password" [])).


(** X14. A successful login. When the store's row for the user name
    verifies the password, [login_for_access_token] returns (it cannot hit
    the [AttributeError] of [create_refresh_token], the user being there):
    the body holds a bearer access token for the address, 30 minutes from
    the first clock reading, and a refresh token for it, 24 hours from the
    second; the refresh token is the one stored on the user's row; until it
    expires the access token authenticates as that user, and until it
    expires the refresh token is exchanged by rotation. *)
Theorem login_issues_working_tokens (username password : string)
    (db : list User) (utcnow utcnow' : Z) (u : User) :
  get_user_by_email db (JStr username) = Some u ->
  pwd_verify password (hashed_password u) = Some true ->
  exists access refresh db',
    main.login_for_access_token SECRET_KEY username password db utcnow utcnow'
    = Done (<["access_token" := JStr access]>
              (<["token_type" := JStr "bearer"]>
                 (<["refresh_token" := JStr refresh]>
                    {["avatar_url" := main.avatar_or_none u]})),
            db')
    /\ jws_verify access SECRET_KEY [ALG]
       = Some (<["exp" := JInt (utcnow + 30 * 60)]>
                 {["sub" := JStr username]})
    /\ jws_verify refresh SECRET_KEY [ALG]
       = Some (<["exp" := JInt (utcnow' + 1440 * 60)]>
                 {["sub" := JStr username]})
    /\ get_user_by_email db' (JStr username)
       = Some (set_refresh_token refresh u)
    /\ (forall now, now < utcnow + 30 * 60 ->
          tokens_access.get_current_user SECRET_KEY access db' now
          = Returns (set_refresh_token refresh u))
    /\ (forall now, now < utcnow' + 1440 * 60 ->
          exists access',
            main.refresh_access_token SECRET_KEY refresh db' now
            = Returns {| tokens_access.access_token := access';
                         tokens_access.token_type := "bearer" |}).
Proof.
  intros Hu Hpw.
  destruct (query_first_email _ _ _ Hu) as [Heq _].
  injection Heq as Heq. subst username.
  assert (({["sub" := JStr (email u)]} : claims) !! "sub"
          = Some (JStr (email u))) as Hsub by apply lookup_singleton_eq.
  destruct (create_refresh_token_present SECRET_KEY _ (email u) db
    (Some (total_seconds
       (timedelta_minutes tokens_access.REFRESH_TOKEN_EXPIRE_MINUTES)))
    utcnow' u Hsub Hu) as (refresh & db' & Hissue & Hrefresh & Hu' & _).
  assert (jws_verify refresh SECRET_KEY [ALG]
          = Some (<["exp" := JInt (utcnow' + 1440 * 60)]>
                    {["sub" := JStr (email u)]})) as Hvr.
  { rewrite Hrefresh.
    apply (refresh_token_for_verify SECRET_KEY _ (1440 * 60) utcnow').
    discriminate. }
  exists (tokens_access.create_access_token SECRET_KEY
            {["sub" := JStr (email u)]}
            (Some (total_seconds
               (timedelta_minutes tokens_access.ACCESS_TOKEN_EXPIRE_MINUTES)))
            utcnow), refresh, db'.
  split.
  { unfold main.login_for_access_token, users.authenticate_user.
    rewrite Hu, Hpw. unfold mbind, outcome_bind. simpl.
    rewrite Hissue. reflexivity. }
  split; [apply access_token_for_verify |].
  split; [exact Hvr |].
  split; [exact Hu' |].
  split.
  - intros now Hnow.
    apply (get_current_user_issued SECRET_KEY (email u)
      (timedelta_minutes tokens_access.ACCESS_TOKEN_EXPIRE_MINUTES)
      utcnow now db' _ "");
      [discriminate | exact Hnow | exact Hu' | left; reflexivity].
  - intros now Hnow. unfold main.refresh_access_token.
    rewrite (rotation_verified SECRET_KEY _ _ _ _ Hvr)
      by (apply validate_subject_expiry, Hnow).
    rewrite dict_get_subject_expiry, Hu'. eexists. reflexivity.
Qed.


End main_login.

(** ** main.py: registering *)

Section main_register.
Context {lib : JWT} {pwd_context : CryptContext} {fast_mail : FastMail}.
Variable SECRET_KEY : string.

Local Abbreviation conflict :=
  (Exn (HTTPException 409 "User with this email already exists" [])).

(** The message [register_user] hands to the mail package. *)
Local Abbreviation verification_mail e utcnow :=
  {| subject := "Підтвердження електронної пошти";
     recipients := [e%string];
     body := utils_email.verification_body
               (token.generate_verification_token SECRET_KEY e%string utcnow);
     subtype := "html" |}.

Lemma register_user_free (e password : string) (db : list User)
    (utcnow : Z) (salt : string) (new_id : Z) :
  get_user_by_email db (JStr e) = None ->
  main.register_user SECRET_KEY e password db utcnow salt new_id =
    if valid_recipient e then
      match send_message (verification_mail e utcnow) with
      | None =>
          match pwd_hash password salt with
          | Some hashed =>
              Done (mkUser new_id e hashed None false None,
                    (db ++ [mkUser new_id e hashed None false None])%list)
          | None => Failed PasslibError
          end
      | Some err =>
          Failed (Exn (HTTPException 500
                         ("Помилка відправки листа: " ++ err) []))
      end
    else Failed ValidationError.
Proof.
  intros Hfree.
  unfold main.register_user, utils_email.send_email_verification,
    users.create_user.
  rewrite Hfree. simpl. rewrite andb_true_r.
  destruct (valid_recipient e); [| reflexivity].
  destruct (send_message (verification_mail e utcnow)); [reflexivity |].
  unfold mbind, outcome_bind.
  destruct (pwd_hash password salt); reflexivity.
Qed.

(** X16. Registration, then the rest of the sign-up. When
    [register_user] succeeds, the address was free, the message handed to
    the mail package carries the verification token issued for the address
    at that clock reading, and the new row is appended, unverified. On the
    new store the user authenticates with the password, and confirming
    with the mailed token before it expires marks the user verified. *)
Theorem register_user_sign_up (e password : string) (db db' : list User)
    (utcnow : Z) (salt : string) (new_id : Z) (u : User) :
  main.register_user SECRET_KEY e password db utcnow salt new_id
  = Done (u, db') ->
  get_user_by_email db (JStr e) = None
  /\ send_message (verification_mail e utcnow) = None
  /\ db' = (db ++ [u])%list
  /\ email u = e /\ is_verified u = false
  /\ users.authenticate_user db' e password = Done (Some u)
  /\ (forall now, now < utcnow + 60 * 60 ->
        exists db'',
          main.confirm_email SECRET_KEY
            (token.generate_verification_token SECRET_KEY e utcnow) e db' now
          = Returns ({["message" := JStr "Email has been confirmed"]}, db'')
          /\ get_user_by_email db'' (JStr e) = Some (set_is_verified u)).
Proof.
  intros Hreg.
  destruct (get_user_by_email db (JStr e)) as [w |] eqn:Hfree.
  { unfold main.register_user in Hreg. rewrite Hfree in Hreg. discriminate. }
  rewrite (register_user_free _ _ _ _ _ _ Hfree) in Hreg.
  destruct (valid_recipient e); [| discriminate].
  destruct (send_message (verification_mail e utcnow)) eqn:Hsend;
    [discriminate |].
  destruct (pwd_hash password salt) as [hashed |] eqn:Hhash;
    [| discriminate].
  injection Hreg as <- <-.
  assert (get_user_by_email
            (db ++ [mkUser new_id e hashed None false None]) (JStr e)
          = Some (mkUser new_id e hashed None false None)) as Hu.
  { unfold get_user_by_email. rewrite (query_first_app_None _ _ _ Hfree).
    simpl. rewrite String.eqb_refl. reflexivity. }
  split; [reflexivity |]. split; [reflexivity |]. split; [reflexivity |].
  split; [reflexivity |]. split; [reflexivity |]. split.
  - unfold users.authenticate_user. rewrite Hu. simpl.
    rewrite (pwd_verify_hash _ _ _ Hhash). reflexivity.
  - intros now Hnow.
    rewrite (confirm_email_known _ _ _ _ _ _ Hu), verify_generated.
    rewrite String.eqb_refl, expired_future by exact Hnow. simpl.
    eexists. split; [reflexivity |].
    apply query_first_commit_row;
      [intros w; apply email_is_set_is_verified | exact Hu].
Qed.


End main_register.

(** ** main.py: deleting a user *)

Lemma delete_row_split (p : User -> bool) (db : list User) (u : User) :
  query_first p db = Some u ->
  exists l1 l2,
    db = (l1 ++ u :: l2)%list
    /\ delete_row p db = (l1 ++ l2)%list
    /\ Forall (fun w => p w = false) l1.
Proof.
  unfold query_first. induction db as [| w db IH]; simpl; [discriminate |].
  destruct (p w) eqn:Hw.
  - intros Hq. injection Hq as <-. exists [], db.
    split; [reflexivity | split; [reflexivity | constructor]].
  - intros Hq. destruct (IH Hq) as (l1 & l2 & -> & Hd & Hall).
    exists (w :: l1), l2. simpl. rewrite Hd.
    split; [reflexivity | split; [reflexivity |]].
    constructor; assumption.
Qed.

Lemma query_first_none (p : User -> bool) (db : list User) :
  Forall (fun w => p w = false) db -> query_first p db = None.
Proof.
  unfold query_first. induction 1 as [| w db Hw _ IH]; simpl;
    [reflexivity |].
  rewrite Hw. exact IH.
Qed.

(** In a list without two rows of the same key, the rows around a row
    have other keys. *)
Lemma NoDup_map_split {K : Type} (key : User -> K) (l1 l2 : list User)
    (u : User) :
  List.NoDup (map key (l1 ++ u :: l2)) ->
  Forall (fun w => key w <> key u) (l1 ++ l2).
Proof.
  intros Hnd. apply Forall_forall. intros w Hin Heq.
  rewrite map_app in Hnd. simpl in Hnd.
  apply NoDup_remove_2 in Hnd. apply Hnd.
  rewrite <- Heq, <- map_app. apply in_map, Hin.
Qed.

Section main_delete_user.
Context {lib : JWT}.
Variable SECRET_KEY : string.

Local Abbreviation deleted :=
  ({["message" := JStr "User deleted successfully"]} : claims).

(** X18. Deleting a user. In a store that respects the primary key and
    the uniqueness of addresses, [delete_user] on the id of a user returns
    and commits a store from which exactly that row is gone: the id and the
    address are no longer found, every other row is kept, and an access
    token issued for the address is answered 401 from then on, expired or
    not. *)
Theorem delete_user_removes_and_revokes (user_id : Z) (db : list User)
    (u : User) :
  List.NoDup (map id db) -> List.NoDup (map email db) ->
  users.get_user db user_id = Some u ->
  exists db',
    main.delete_user user_id db = Returns (deleted, db')
    /\ users.get_user db' user_id = None
    /\ get_user_by_email db' (JStr (email u)) = None
    /\ (forall w, In w db' <-> In w db /\ w <> u)
    /\ (forall expires_delta t0 now,
          tokens_access.get_current_user SECRET_KEY
            (tokens_access.create_access_token SECRET_KEY
               {["sub" := JStr (email u)]} expires_delta t0)
            db' now
          = Raises tokens_access.credentials_exception).
Proof.
  intros Hid Hemail Hu. unfold users.get_user in Hu.
  destruct (delete_row_split _ _ _ Hu) as (l1 & l2 & -> & Hdel & _).
  pose proof (NoDup_map_split id _ _ _ Hid) as Hids.
  pose proof (NoDup_map_split email _ _ _ Hemail) as Hemails.
  assert (Z.eqb (id u) user_id = true) as Hpu.
  { apply List.find_some in Hu as [_ Hp]. exact Hp. }
  apply Z.eqb_eq in Hpu.
  assert (get_user_by_email (l1 ++ l2) (JStr (email u)) = None) as Hgone.
  { apply query_first_none. eapply Forall_impl; [| exact Hemails].
    intros w Hw. simpl. apply String.eqb_neq, Hw. }
  exists (l1 ++ l2)%list. split; [| split; [| split; [| split]]].
  - unfold main.delete_user. rewrite Hu, Hdel. reflexivity.
  - apply query_first_none. eapply Forall_impl; [| exact Hids].
    intros w Hw. simpl. apply Z.eqb_neq. congruence.
  - exact Hgone.
  - intros w. rewrite !in_app_iff. simpl. split.
    + intros Hin. split; [tauto |]. intros ->.
      rewrite Forall_forall in Hids. apply (Hids u); [| reflexivity].
      apply in_app_iff. exact Hin.
    + intros [[H | [H | H]] Hne]; [tauto | congruence | tauto].
  - intros expires_delta t0 now.
    apply access_token_unknown_user, Hgone.
Qed.

End main_delete_user.

Lemma delete_user_unknown (user_id : Z) (db : list User) :
  users.get_user db user_id = None ->
  main.delete_user user_id db = Raises (HTTPException 404 "User not found" []).
Proof.
  intros H. unfold users.get_user in H. unfold main.delete_user.
  rewrite H. reflexivity.
Qed.

(** ** main.py: upcoming birthdays *)

Lemma days_in_month_ge (y m : Z) : 28 <= days_in_month y m.
Proof.
  unfold days_in_month.
  destruct (Z.eqb m 2); [destruct (is_leap y); lia |].
  destruct (Z.eqb m 4 || Z.eqb m 6 || Z.eqb m 9 || Z.eqb m 11); lia.
Qed.

(** X19. Upcoming birthdays stop at the end of the month. When the week
    ahead reaches into the next month, the query returns no contact at
    all, whatever the table holds: the day of the date a week ahead is then
    smaller than today's. *)
Theorem upcoming_birthdays_month_end (contacts : list contact.Contact)
    (today : date) :
  days_in_month (year today) (month today) < day today + 7 ->
  main.upcoming_birthdays contacts today = [].
Proof.
  intros Hend. unfold main.upcoming_birthdays, plus_7_days.
  pose proof (days_in_month_ge (year today) (month today)) as Hge.
  rewrite (proj2 (Z.leb_gt _ _) Hend).
  induction contacts as [| c contacts IH]; simpl; [reflexivity |].
  rewrite IH.
  destruct (contact.birthdate c) as [b |]; [| reflexivity].
  destruct (Z.eqb (month today) 12); simpl;
    destruct (Z.eqb (month b) (month today)); simpl; try reflexivity;
    destruct (Z.leb (day today) (day b)) eqn:H1; simpl; try reflexivity;
    (destruct (Z.leb (day b)
       (day today + 7 - days_in_month (year today) (month today))) eqn:H2;
     [| reflexivity]);
    apply Z.leb_le in H1; apply Z.leb_le in H2; lia.
Qed.

(** X20. Upcoming birthdays within the month. When the week ahead stays
    in the current month, the query returns, in the order of the table,
    exactly the contacts whose birthdate is in the current month on a day
    from today's to today's plus seven, of whatever year and whatever
    owner. *)
Theorem upcoming_birthdays_within_month (contacts : list contact.Contact)
    (today : date) (c : contact.Contact) :
  day today + 7 <= days_in_month (year today) (month today) ->
  (In c (main.upcoming_birthdays contacts today) <->
   In c contacts
   /\ exists b,
        contact.birthdate c = Some b
        /\ month b = month today
        /\ day today <= day b <= day today + 7).
Proof.
  intros Hin. unfold main.upcoming_birthdays, plus_7_days.
  rewrite (proj2 (Z.leb_le _ _) Hin). simpl.
  rewrite filter_In. split.
  - intros [Hc Hf]. split; [exact Hc |].
    destruct (contact.birthdate c) as [b |]; [| discriminate].
    exists b. split; [reflexivity |].
    apply andb_true_iff in Hf as [Hf H3].
    apply andb_true_iff in Hf as [H1 H2].
    apply Z.eqb_eq in H1. apply Z.leb_le in H2. apply Z.leb_le in H3.
    split; [exact H1 | lia].
  - intros [Hc (b & Hb & Hm & Hd)]. split; [exact Hc |].
    rewrite Hb, Hm, Z.eqb_refl. simpl.
    rewrite (proj2 (Z.leb_le _ _) (proj1 Hd)).
    rewrite (proj2 (Z.leb_le _ _) (proj2 Hd)). reflexivity.
Qed.

(** * Concrete runs

    The code above run with the implementation [simple_jwt.impl] on
    concrete tokens, stores and clock readings. *)

Section runs.
Existing Instance simple_jwt.impl.

(** C1, counterexample. The token below has a valid signature under the
    key and a body that parses, with expiry 1000; at clock reading 2000
    [jwt.decode] does not return its claims but raises
    [ExpiredSignatureError]. *)
Lemma decode_after_expiry_counterexample :
  jws_verify example_token example_key ["HS256"] = Some example_claims
  /\ example_claims !! "exp" = Some (JInt 1000)
  /\ jwt.decode example_token example_key ["HS256"] 2000
     = Raises (JWTError ExpiredSignatureError).
Proof. vm_compute. repeat split; reflexivity. Qed.

Lemma decode_checks_authenticity_and_expiry_witness :
  jws_verify example_token example_key [tokens_access.ALGORITHM]
  = Some example_claims
  /\ ((exists err,
         jwt.decode example_token example_key [tokens_access.ALGORITHM] 2000
         = Raises (JWTError err))
      /\ tokens_access.get_login_from_refresh_token example_key
           example_token 2000 = Returns None)
  /\ (jwt.decode example_token example_key [tokens_access.ALGORITHM] 500
      = Returns example_claims
      /\ tokens_access.get_login_from_refresh_token example_key
           example_token 500 = Returns (dict_get example_claims "sub")).
Proof.
  assert (jws_verify example_token example_key [tokens_access.ALGORITHM]
          = Some example_claims) as Hv by (vm_compute; reflexivity).
  assert (example_claims !! "exp" = Some (JInt 1000)) as Hexp
    by (vm_compute; reflexivity).
  split; [exact Hv |]. split.
  - apply (proj1 (decode_checks_authenticity_and_expiry example_key
      example_token example_claims 1000 2000 Hv Hexp)).
    lia.
  - apply (proj2 (decode_checks_authenticity_and_expiry example_key
      example_token example_claims 1000 500 Hv Hexp)).
    + lia.
    + apply plain_claims_insert_sub, plain_claims_insert_exp,
        plain_claims_empty.
Defined.

(** C2: the failing input, a bearer token signed under the key whose
    payload has an expiry in the future and no subject. *)
Lemma get_current_user_missing_subject_witness :
  jws_verify (removeprefix ("Bearer " ++ no_subject_token) "Bearer ")
    example_key [tokens_access.ALGORITHM] = Some no_subject_claims
  /\ tokens_access.get_current_user example_key
       ("Bearer " ++ no_subject_token) example_store 1000
     = Raises (KeyError "sub").
Proof.
  assert (jws_verify (removeprefix ("Bearer " ++ no_subject_token) "Bearer ")
            example_key [tokens_access.ALGORITHM] = Some no_subject_claims)
    as Hv by (vm_compute; reflexivity).
  split; [exact Hv |].
  apply (get_current_user_missing_subject example_key
    ("Bearer " ++ no_subject_token) no_subject_claims example_store 1000 Hv);
    vm_compute; reflexivity.
Defined.

(** C3: a token issued for a@example.com, presented with the scheme
    prefix to a store that holds b@example.com first. *)
Lemma get_current_user_returns_subject_witness :
  tokens_access.get_current_user example_key ("Bearer " ++ alice_token)
    example_store 1000 = Returns alice
  /\ email alice = "a@example.com"
  /\ In alice example_store.
Proof.
  assert (tokens_access.get_current_user example_key
    ("Bearer " ++ alice_token) example_store 1000 = Returns alice) as Hret
    by (vm_compute; reflexivity).
  split; [exact Hret |].
  apply (get_current_user_returns_subject example_key
    ("Bearer " ++ alice_token) "a@example.com"
    (<["exp" := JInt 2800]> {["sub" := JStr "a@example.com"]})
    example_store 1000 alice); [vm_compute; reflexivity .. | exact Hret].
Defined.

(** C4, counterexample. Issued at clock reading 1000 without a lifetime,
    the token's expiry is 1000 + 15 minutes, not 1000 + 30 minutes. *)
Lemma default_access_token_lifetime_counterexample :
  exists c,
    jws_verify
      (tokens_access.create_access_token example_key
         {["sub" := JStr "u@example.com"]} None 1000)
      example_key ["HS256"] = Some c
    /\ c !! "exp" = Some (JInt (1000 + 15 * 60))
    /\ c !! "exp" <> Some (JInt (1000 + 30 * 60)).
Proof.
  exists (<["exp" := JInt 1900]> {["sub" := JStr "u@example.com"]}).
  vm_compute. repeat split; [reflexivity .. | discriminate].
Qed.

(** C5: the failing input, a subject no user of the store has. *)
Lemma create_refresh_token_absent_user_witness :
  get_user_by_email example_store (JStr "ghost@example.com") = None
  /\ tokens_access.create_refresh_token example_key
       {["sub" := JStr "ghost@example.com"]} example_store
       (Some (total_seconds 86400)) 1000
     = Raises (AttributeError "refresh_token").
Proof.
  split; [vm_compute; reflexivity |].
  apply (create_refresh_token_absent_user example_key
    {["sub" := JStr "ghost@example.com"]} "ghost@example.com");
    vm_compute; reflexivity.
Defined.

Lemma decode_encode_round_trip_witness :
  0 < 3600
  /\ (exists c,
        jwt.decode
          (jwt.encode
             (<["sub" := JStr "u@example.com"]>
                (<["exp" := JInt (1000 + 3600)]> ∅))
             example_key tokens_access.ALGORITHM)
          example_key [tokens_access.ALGORITHM] 1000 = Returns c
        /\ c !! "sub" = Some (JStr "u@example.com")
        /\ c !! "exp" = Some (JInt (1000 + 3600)))
  /\ (exists c,
        jwt.decode
          (tokens_access.create_access_token example_key
             {["sub" := JStr "u@example.com"]} (Some (total_seconds 3600))
             1000)
          example_key [tokens_access.ALGORITHM] 1000 = Returns c
        /\ c !! "sub" = Some (JStr "u@example.com")
        /\ c !! "exp" = Some (JInt (1000 + 3600)))
  /\ jwt.decode
       (tokens_access.create_access_token example_key
          {["sub" := JStr "u@example.com"]} (Some (total_seconds 3600)) 1000)
       example_key [tokens_access.ALGORITHM] 4599
     = Returns (<["exp" := JInt (1000 + 3600)]>
                  {["sub" := JStr "u@example.com"]})
  /\ (exists err,
        jwt.decode
          (tokens_access.create_access_token example_key
             {["sub" := JStr "u@example.com"]} (Some (total_seconds 3600))
             1000)
          example_key [tokens_access.ALGORITHM] 4601
        = Raises (JWTError err))
  /\ tokens_access.get_login_from_refresh_token example_key
       (tokens_access.create_access_token example_key
          {["sub" := JStr "u@example.com"]} (Some (total_seconds 3600)) 1000)
       1000
     = Returns (Some (JStr "u@example.com")).
Proof.
  assert (0 < 3600) as Httl by lia.
  split; [exact Httl |].
  destruct (decode_encode_round_trip example_key "u@example.com" 3600 1000
    Httl) as (Hpkg & Hcode & Hbefore & Hafter & Hlogin).
  split; [exact Hpkg |]. split; [exact Hcode |].
  split; [apply Hbefore; lia |].
  split; [apply Hafter; lia |].
  exact Hlogin.
Defined.

(** C7, counterexample. The verification token issued at clock reading
    1000 for u@example.com has a valid signature, the subject
    u@example.com and the expiry 4600. At the reading 4600, which is not
    past the expiry, [verify_verification_token] answers [False] for
    u@example.com under PyJWT's boundary. *)
Lemma verification_token_boundary_counterexample :
  pyjwt_boundary simple_pyjwt.impl
  /\ (exists c,
        jws_verify (JWT := simple_pyjwt.impl)
          (token.generate_verification_token (lib := simple_pyjwt.impl)
             example_key "u@example.com" 1000)
          example_key [token.ALGORITHM] = Some c
        /\ c !! "sub" = Some (JStr "u@example.com")
        /\ c !! "exp" = Some (JInt 4600))
  /\ 4600 <= 4600
  /\ token.verify_verification_token (lib := simple_pyjwt.impl) example_key
       "u@example.com"
       (token.generate_verification_token (lib := simple_pyjwt.impl)
          example_key "u@example.com" 1000)
       4600
     = Returns false.
Proof.
  split; [intros e now; reflexivity |].
  split.
  { exists (<["sub" := JStr "u@example.com"]> (<["exp" := JInt 4600]> ∅)).
    vm_compute. repeat split; reflexivity. }
  split; [lia |].
  vm_compute. reflexivity.
Qed.


(** C8: two issuances for a@example.com, one minute apart, on a store
    that holds b@example.com first. *)
Lemma refresh_token_overwrite_witness :
  get_user_by_email example_store (JStr "a@example.com") = Some alice
  /\ exists token1 db1 token2 db2,
       tokens_access.create_refresh_token example_key
         {["sub" := JStr "a@example.com"]} example_store
         (Some (total_seconds 86400)) 1000 = Returns (token1, db1)
       /\ tokens_access.create_refresh_token example_key
            {["sub" := JStr "a@example.com"]} db1
            (Some (total_seconds 86400)) 1060 = Returns (token2, db2)
       /\ get_user_by_email db1 (JStr "a@example.com")
          = Some (set_refresh_token token1 alice)
       /\ get_user_by_email db2 (JStr "a@example.com")
          = Some (set_refresh_token token2 alice)
       /\ token1 <> token2
       /\ refresh_token (set_refresh_token token2 alice) = Some token2
       /\ refresh_token (set_refresh_token token2 alice) <> Some token1
       /\ (forall w, In w db2 -> email w = "a@example.com" ->
             refresh_token w = Some token2)
       /\ get_user_by_email db2 (JStr "b@example.com") = Some bob.
Proof.
  assert (get_user_by_email example_store (JStr "a@example.com") = Some alice)
    as Hu by (vm_compute; reflexivity).
  assert (({["sub" := JStr "a@example.com"]} : claims) !! "sub"
          = Some (JStr "a@example.com")) as Hsub by (vm_compute; reflexivity).
  split; [exact Hu |].
  destruct (refresh_token_overwrite example_key
    {["sub" := JStr "a@example.com"]} "a@example.com" example_store
    (Some (total_seconds 86400)) (Some (total_seconds 86400)) 1000 1060 alice
    Hsub Hu)
    as (token1 & db1 & token2 & db2 & H1 & H2 & _ & _ & Hu1 & Hu2 & _ & Hs2
        & Hdiff & Huniq & Hframe).
  exists token1, db1, token2, db2.
  assert (refresh_expiry (Some (total_seconds 86400)) 1000
          <> refresh_expiry (Some (total_seconds 86400)) 1060) as Hne
    by (vm_compute; discriminate).
  split; [exact H1 |]. split; [exact H2 |].
  split; [exact Hu1 |]. split; [exact Hu2 |].
  split; [apply Hdiff, Hne |]. split; [exact Hs2 |].
  split; [apply Hdiff, Hne |].
  split.
  - apply Huniq. vm_compute.
    constructor; [| constructor; [intros [] | constructor]].
    intros [H | []]. discriminate H.
  - rewrite Hframe by discriminate. vm_compute. reflexivity.
Defined.

Lemma verify_verification_token_missing_subject_witness :
  jws_verify no_subject_token example_key [token.ALGORITHM]
  = Some no_subject_claims
  /\ validate_claims no_subject_claims 1000 = None
  /\ token.verify_verification_token example_key "u@example.com"
       no_subject_token 1000 = Raises (KeyError "sub").
Proof.
  assert (jws_verify no_subject_token example_key [token.ALGORITHM]
          = Some no_subject_claims) as Hv by (vm_compute; reflexivity).
  assert (validate_claims no_subject_claims 1000 = None) as Hval
    by (vm_compute; reflexivity).
  split; [exact Hv |]. split; [exact Hval |].
  apply (verify_verification_token_missing_subject example_key
    "u@example.com" no_subject_token no_subject_claims 1000 Hv Hval).
  vm_compute; reflexivity.
Defined.

(** C10, counterexample. A lifetime of -5 seconds is truthy and used as
    given: the token issued at clock reading 1000 has expiry 995, and
    [jwt.decode] refuses it as expired at that very reading. *)
Lemma negative_lifetime_counterexample :
  exists c,
    jws_verify
      (tokens_access.create_access_token example_key
         {["sub" := JStr "u@example.com"]} (Some (-5 # 1)%Q) 1000)
      example_key ["HS256"] = Some c
    /\ c !! "exp" = Some (JInt 995)
    /\ jwt.decode
         (tokens_access.create_access_token example_key
            {["sub" := JStr "u@example.com"]} (Some (-5 # 1)%Q) 1000)
         example_key ["HS256"] 1000
       = Raises (JWTError ExpiredSignatureError).
Proof.
  exists (<["exp" := JInt 995]> {["sub" := JStr "u@example.com"]}).
  vm_compute. repeat split; reflexivity.
Qed.

Lemma create_access_token_falsy_lifetime_witness :
  truthy (Some (0 # 1)%Q) = false
  /\ tokens_access.create_access_token example_key
       {["sub" := JStr "u@example.com"]} (Some (0 # 1)%Q) 1000
     = tokens_access.create_access_token example_key
         {["sub" := JStr "u@example.com"]} None 1000
  /\ jwt.decode
       (tokens_access.create_access_token example_key
          {["sub" := JStr "u@example.com"]} (Some (0 # 1)%Q) 1000)
       example_key [tokens_access.ALGORITHM] 1000
     = Returns (<["exp" := JInt (1000 + 15 * 60)]>
                  {["sub" := JStr "u@example.com"]}).
Proof.
  assert (truthy (Some (0 # 1)%Q) = false) as Hf by reflexivity.
  split; [exact Hf |].
  destruct (create_access_token_falsy_lifetime example_key
    {["sub" := JStr "u@example.com"]} (Some (0 # 1)%Q) 1000 Hf)
    as (Heq & _ & Hdec).
  split; [exact Heq |].
  apply Hdec, plain_claims_sub.
Defined.

End runs.

(** * More concrete runs *)

Section more_runs.
Existing Instance simple_jwt.impl.
Existing Instance simple_passlib.impl.
Existing Instance simple_mail.delivering.

Lemma rotation_issues_access_token_witness :
  get_user_by_email example_store (JStr "a@example.com") = Some alice
  /\ exists access,
       tokens_access.create_access_token_from_refresh_token example_key
         (refresh_token_for example_key {["sub" := JStr "a@example.com"]}
            (Some (total_seconds 3600)) 1000)
         example_store 1500
       = Returns {| tokens_access.access_token := access;
                    tokens_access.token_type := "bearer" |}
       /\ jws_verify access example_key [tokens_access.ALGORITHM]
          = Some (<["exp" := JInt (1500 + 30 * 60)]>
                    {["sub" := JStr "a@example.com"]}).
Proof.
  assert (get_user_by_email example_store (JStr "a@example.com") = Some alice)
    as Hu by (vm_compute; reflexivity).
  split; [exact Hu |].
  apply (rotation_issues_access_token example_key _ "a@example.com"
    (<["exp" := JInt 4600]> {["sub" := JStr "a@example.com"]})
    example_store 1500 alice); [vm_compute; reflexivity .. | exact Hu].
Defined.

Lemma superseded_refresh_token_rotates_witness :
  get_user_by_email example_store (JStr "a@example.com") = Some alice
  /\ exists token1 db1 token2 db2 access,
       tokens_access.create_refresh_token example_key
         {["sub" := JStr "a@example.com"]} example_store
         (Some (total_seconds 3600)) 1000 = Returns (token1, db1)
       /\ tokens_access.create_refresh_token example_key
            {["sub" := JStr "a@example.com"]} db1
            (Some (total_seconds 3600)) 2000 = Returns (token2, db2)
       /\ (forall u2, get_user_by_email db2 (JStr "a@example.com") = Some u2 ->
             refresh_token u2 = Some token2)
       /\ tokens_access.create_access_token_from_refresh_token example_key
            token1 db2 2500
          = Returns {| tokens_access.access_token := access;
                       tokens_access.token_type := "bearer" |}.
Proof.
  assert (get_user_by_email example_store (JStr "a@example.com") = Some alice)
    as Hu by (vm_compute; reflexivity).
  split; [exact Hu |].
  apply (superseded_refresh_token_rotates example_key "a@example.com"
    example_store 3600 3600 1000 2000 2500 alice);
    [discriminate | lia | exact Hu].
Defined.

Lemma rotated_access_token_authenticates_witness :
  get_user_by_email example_store (JStr "a@example.com") = Some alice
  /\ exists resp,
       tokens_access.create_access_token_from_refresh_token example_key
         (refresh_token_for example_key {["sub" := JStr "a@example.com"]}
            (Some (total_seconds 3600)) 1000)
         example_store 1500 = Returns resp
       /\ tokens_access.get_current_user example_key
            (tokens_access.access_token resp) example_store 2000
          = Returns alice
       /\ tokens_access.get_current_user example_key
            ("Bearer " ++ tokens_access.access_token resp) example_store 2000
          = Returns alice.
Proof.
  assert (get_user_by_email example_store (JStr "a@example.com") = Some alice)
    as Hu by (vm_compute; reflexivity).
  split; [exact Hu |].
  apply (rotated_access_token_authenticates example_key _ "a@example.com"
    (<["exp" := JInt 4600]> {["sub" := JStr "a@example.com"]})
    example_store 1500 2000 alice);
    [vm_compute; reflexivity .. | exact Hu | lia].
Defined.

Lemma access_token_lifetime_witness :
  get_user_by_email example_store (JStr "a@example.com") = Some alice
  /\ tokens_access.get_current_user example_key ("Bearer " ++ alice_token)
       example_store 2000 = Returns alice
  /\ tokens_access.get_current_user example_key alice_token
       example_store 3000 = Raises tokens_access.credentials_exception
  /\ tokens_access.get_current_user example_key alice_token
       [bob] 2000 = Raises tokens_access.credentials_exception.
Proof.
  assert (get_user_by_email example_store (JStr "a@example.com") = Some alice)
    as Hu by (vm_compute; reflexivity).
  assert (1800 <> 0) as Httl by discriminate.
  destruct (access_token_lifetime example_key "a@example.com" 1800 1000
    example_store alice Httl Hu) as (Hlive & Hdead & Hgone).
  split; [exact Hu |]. split; [| split].
  - apply (Hlive 2000 "Bearer "); [lia | right; reflexivity].
  - apply (Hdead 3000). lia.
  - apply (Hgone [bob] 2000). vm_compute; reflexivity.
Defined.

Lemma create_refresh_token_frame_witness :
  tokens_access.create_refresh_token example_key
    {["sub" := JStr "a@example.com"]} example_store
    (Some (total_seconds 3600)) 1000
  = Returns
      (refresh_token_for example_key {["sub" := JStr "a@example.com"]}
         (Some (total_seconds 3600)) 1000,
       [bob;
        set_refresh_token
          (refresh_token_for example_key {["sub" := JStr "a@example.com"]}
             (Some (total_seconds 3600)) 1000) alice])
  /\ exists l1 u l2,
       example_store = (l1 ++ u :: l2)%list
       /\ [bob;
           set_refresh_token
             (refresh_token_for example_key
                {["sub" := JStr "a@example.com"]}
                (Some (total_seconds 3600)) 1000) alice]
          = (l1 ++
             set_refresh_token
               (refresh_token_for example_key
                  {["sub" := JStr "a@example.com"]}
                  (Some (total_seconds 3600)) 1000) u :: l2)%list
       /\ ({["sub" := JStr "a@example.com"]} : claims) !! "sub"
          = Some (JStr (email u))
       /\ Forall (fun w => email w <> email u) l1.
Proof.
  assert (tokens_access.create_refresh_token example_key
    {["sub" := JStr "a@example.com"]} example_store
    (Some (total_seconds 3600)) 1000
  = Returns
      (refresh_token_for example_key {["sub" := JStr "a@example.com"]}
         (Some (total_seconds 3600)) 1000,
       [bob;
        set_refresh_token
          (refresh_token_for example_key {["sub" := JStr "a@example.com"]}
             (Some (total_seconds 3600)) 1000) alice])) as Hret
    by (vm_compute; reflexivity).
  split; [exact Hret |].
  destruct (create_refresh_token_frame example_key _ _ _ _ _ _ Hret)
    as (l1 & u & l2 & H1 & H2 & H3 & H4 & _).
  exists l1, u, l2. repeat split; assumption.
Defined.

Lemma confirm_email_marks_verified_witness :
  get_user_by_email example_store (JStr "a@example.com") = Some alice
  /\ exists db',
       main.confirm_email example_key
         (token.generate_verification_token example_key "a@example.com" 1000)
         "a@example.com" example_store 2000
       = Returns ({["message" := JStr "Email has been confirmed"]}, db')
       /\ get_user_by_email db' (JStr "a@example.com")
          = Some (set_is_verified alice)
       /\ (forall e', e' <> "a@example.com" ->
             get_user_by_email db' (JStr e')
             = get_user_by_email example_store (JStr e')).
Proof.
  assert (get_user_by_email example_store (JStr "a@example.com") = Some alice)
    as Hu by (vm_compute; reflexivity).
  split; [exact Hu |].
  apply (confirm_email_marks_verified example_key "a@example.com" 1000 2000
    example_store alice); [lia | exact Hu].
Defined.

Lemma confirm_email_repeatable_witness :
  get_user_by_email example_store (JStr "a@example.com") = Some alice
  /\ exists db1,
       main.confirm_email example_key
         (token.generate_verification_token example_key "a@example.com" 1000)
         "a@example.com" example_store 2000
       = Returns ({["message" := JStr "Email has been confirmed"]}, db1)
       /\ main.confirm_email example_key
            (token.generate_verification_token example_key "a@example.com"
               1000)
            "a@example.com" db1 3000
          = Returns ({["message" := JStr "Email has been confirmed"]}, db1).
Proof.
  assert (get_user_by_email example_store (JStr "a@example.com") = Some alice)
    as Hu by (vm_compute; reflexivity).
  split; [exact Hu |].
  apply (confirm_email_repeatable example_key "a@example.com" 1000 2000 3000
    example_store alice); [lia | lia | exact Hu].
Defined.

Lemma create_user_then_authenticate_witness :
  users.create_user login_store "e@example.com" "correct horse" "c2FsdDI" 4
  = Done (mkUser 4 "e@example.com"
            (simple_passlib.hash "correct horse" "c2FsdDI") None false None,
          (login_store ++
           [mkUser 4 "e@example.com"
              (simple_passlib.hash "correct horse" "c2FsdDI") None false
              None])%list)
  /\ users.authenticate_user
       (login_store ++
        [mkUser 4 "e@example.com"
           (simple_passlib.hash "correct horse" "c2FsdDI") None false
           None])%list
       "e@example.com" "correct horse"
     = Done (Some (mkUser 4 "e@example.com"
                     (simple_passlib.hash "correct horse" "c2FsdDI") None
                     false None)).
Proof.
  assert (users.create_user login_store "e@example.com" "correct horse"
            "c2FsdDI" 4
  = Done (mkUser 4 "e@example.com"
            (simple_passlib.hash "correct horse" "c2FsdDI") None false None,
          (login_store ++
           [mkUser 4 "e@example.com"
              (simple_passlib.hash "correct horse" "c2FsdDI") None false
              None])%list)) as Hc by (vm_compute; reflexivity).
  split; [exact Hc |].
  destruct (create_user_then_authenticate _ _ _ _ _ _ _ Hc)
    as (_ & _ & _ & _ & _ & _ & Hauth & _).
  exact Hauth.
Defined.

Lemma login_issues_working_tokens_witness :
  get_user_by_email login_store (JStr "d@example.com") = Some dave
  /\ pwd_verify "hunter2" (hashed_password dave) = Some true
  /\ exists access refresh db',
       main.login_for_access_token example_key "d@example.com" "hunter2"
         login_store 1000 1001
       = Done (<["access_token" := JStr access]>
                 (<["token_type" := JStr "bearer"]>
                    (<["refresh_token" := JStr refresh]>
                       {["avatar_url" := JNull]})),
               db')
       /\ get_user_by_email db' (JStr "d@example.com")
          = Some (set_refresh_token refresh dave)
       /\ tokens_access.get_current_user example_key access db' 2000
          = Returns (set_refresh_token refresh dave).
Proof.
  assert (get_user_by_email login_store (JStr "d@example.com") = Some dave)
    as Hu by (vm_compute; reflexivity).
  assert (pwd_verify "hunter2" (hashed_password dave) = Some true) as Hpw
    by (vm_compute; reflexivity).
  split; [exact Hu |]. split; [exact Hpw |].
  destruct (login_issues_working_tokens example_key "d@example.com" "hunter2"
    login_store 1000 1001 dave Hu Hpw)
    as (access & refresh & db' & Hlogin & _ & _ & Hrow & Hauth & _).
  exists access, refresh, db'.
  split; [exact Hlogin |]. split; [exact Hrow |].
  apply Hauth. lia.
Defined.

Lemma register_user_sign_up_witness :
  main.register_user example_key "e@example.com" "correct horse" login_store
    1000 "c2FsdDI" 4
  = Done (mkUser 4 "e@example.com"
            (simple_passlib.hash "correct horse" "c2FsdDI") None false None,
          (login_store ++
           [mkUser 4 "e@example.com"
              (simple_passlib.hash "correct horse" "c2FsdDI") None false
              None])%list)
  /\ exists db'',
       main.confirm_email example_key
         (token.generate_verification_token example_key "e@example.com" 1000)
         "e@example.com"
         (login_store ++
          [mkUser 4 "e@example.com"
             (simple_passlib.hash "correct horse" "c2FsdDI") None false
             None])%list
         2000
       = Returns ({["message" := JStr "Email has been confirmed"]}, db'')
       /\ get_user_by_email db'' (JStr "e@example.com")
          = Some (set_is_verified
                    (mkUser 4 "e@example.com"
                       (simple_passlib.hash "correct horse" "c2FsdDI") None
                       false None)).
Proof.
  assert (main.register_user example_key "e@example.com" "correct horse"
            login_store 1000 "c2FsdDI" 4
  = Done (mkUser 4 "e@example.com"
            (simple_passlib.hash "correct horse" "c2FsdDI") None false None,
          (login_store ++
           [mkUser 4 "e@example.com"
              (simple_passlib.hash "correct horse" "c2FsdDI") None false
              None])%list)) as Hreg by (vm_compute; reflexivity).
  split; [exact Hreg |].
  destruct (register_user_sign_up example_key _ _ _ _ _ _ _ _ Hreg)
    as (_ & _ & _ & _ & _ & _ & Hconfirm).
  apply Hconfirm. lia.
Defined.

Lemma delete_user_removes_and_revokes_witness :
  users.get_user example_store 1 = Some alice
  /\ exists db',
       main.delete_user 1 example_store
       = Returns ({["message" := JStr "User deleted successfully"]}, db')
       /\ users.get_user db' 1 = None
       /\ get_user_by_email db' (JStr "a@example.com") = None
       /\ tokens_access.get_current_user example_key alice_token db' 1500
          = Raises tokens_access.credentials_exception.
Proof.
  assert (users.get_user example_store 1 = Some alice) as Hu
    by (vm_compute; reflexivity).
  assert (List.NoDup (map id example_store)) as Hid.
  { apply List.NoDup_cons; [simpl; intros [H | []]; discriminate |].
    apply List.NoDup_cons; [intros [] | apply List.NoDup_nil]. }
  assert (List.NoDup (map email example_store)) as Hemail.
  { apply List.NoDup_cons; [simpl; intros [H | []]; discriminate |].
    apply List.NoDup_cons; [intros [] | apply List.NoDup_nil]. }
  split; [exact Hu |].
  destruct (delete_user_removes_and_revokes example_key 1 example_store alice
    Hid Hemail Hu) as (db' & Hdel & Hgone & Hmail & _ & Hrevoked).
  exists db'. split; [exact Hdel |]. split; [exact Hgone |].
  split; [exact Hmail |].
  apply (Hrevoked (Some (total_seconds 1800)) 1000 1500).
Defined.

Lemma upcoming_birthdays_month_end_witness :
  days_in_month 2024 5 < 28 + 7
  /\ main.upcoming_birthdays
       (contact.mkContact 4 "Dana" "Poe" "dana@example.org" "555-0104"
          (Some (mkDate 1999 5 30)) None (Some "a@example.com")
        :: example_contacts)
       (mkDate 2024 5 28) = [].
Proof.
  assert (days_in_month 2024 5 < 28 + 7) as Hend by (vm_compute; reflexivity).
  split; [exact Hend |].
  exact (upcoming_birthdays_month_end _ (mkDate 2024 5 28) Hend).
Defined.

Lemma upcoming_birthdays_within_month_witness :
  15 + 7 <= days_in_month 2024 5
  /\ In ann (main.upcoming_birthdays example_contacts (mkDate 2024 5 15)).
Proof.
  assert (15 + 7 <= days_in_month 2024 5) as Hin
    by (vm_compute; discriminate).
  split; [exact Hin |].
  apply (proj2 (upcoming_birthdays_within_month example_contacts
    (mkDate 2024 5 15) ann Hin)).
  split; [left; reflexivity |].
  exists (mkDate 1990 5 20). simpl. repeat split; lia.
Defined.

End more_runs.
